(** * WeatherToday: a scheduled weather-forecast post

A shallow embedding of the plugin class [WeatherToday] as it appears in
[src/weatherToday.ts] and in its near-duplicate [src/unnamed/part_000],
together with the part of the JavaScript runtime the class relies on
(UTF-16 strings, IEEE-754 numbers, [Math.round], number-to-string
conversion, [Date] hour and minute extraction). *)

From Stdlib Require Import ZArith List Bool Ascii String Lia.
From Stdlib Require Import Floats.SpecFloat.
From stdpp Require Import base option list gmap.

Set Warnings "-register-all".
Local Open Scope Z_scope.

(** ** JavaScript strings: sequences of UTF-16 code units *)

Module JsString.

(** A string value is a finite sequence of 16-bit code units;
    [text.length] is the number of code units. *)
Definition jsstring := list Z.

Definition byte_of_ascii (c : ascii) : Z := Z.of_N (N_of_ascii c).

Fixpoint bytes_of_string (s : string) : list Z :=
  match s with
  | EmptyString => []
  | String c r => byte_of_ascii c :: bytes_of_string r
  end.

(** Source literals are written in UTF-8; [utf8_decode] recovers their
    code points. *)
Fixpoint utf8_decode (bs : list Z) : list Z :=
  match bs with
  | [] => []
  | b0 :: r0 =>
    if b0 <? 0x80 then b0 :: utf8_decode r0
    else
      match r0 with
      | [] => []
      | b1 :: r1 =>
        if b0 <? 0xE0
        then ((b0 - 0xC0) * 0x40 + (b1 - 0x80)) :: utf8_decode r1
        else
          match r1 with
          | [] => []
          | b2 :: r2 =>
            if b0 <? 0xF0
            then ((b0 - 0xE0) * 0x1000 + (b1 - 0x80) * 0x40 + (b2 - 0x80))
                   :: utf8_decode r2
            else
              match r2 with
              | [] => []
              | b3 :: r3 =>
                ((b0 - 0xF0) * 0x40000 + (b1 - 0x80) * 0x1000
                 + (b2 - 0x80) * 0x40 + (b3 - 0x80)) :: utf8_decode r3
              end
          end
      end
  end.

(** A code point above the basic plane takes a surrogate pair. *)
Definition utf16_encode_cp (cp : Z) : jsstring :=
  if cp <? 0x10000 then [cp]
  else [0xD800 + (cp - 0x10000) / 0x400; 0xDC00 + (cp - 0x10000) mod 0x400].

Definition utf16 (s : string) : jsstring :=
  flat_map utf16_encode_cp (utf8_decode (bytes_of_string s)).

Definition is_high_surrogate (u : Z) : bool := (0xD800 <=? u) && (u <=? 0xDBFF).
Definition is_low_surrogate (u : Z) : bool := (0xDC00 <=? u) && (u <=? 0xDFFF).

(** The code points of a string: a high surrogate followed by a low one is
    one code point, any other code unit stands for itself. *)
Fixpoint codePoints (s : jsstring) : list Z :=
  match s with
  | [] => []
  | u :: r =>
    match r with
    | v :: r' =>
      if is_high_surrogate u && is_low_surrogate v
      then (0x10000 + (u - 0xD800) * 0x400 + (v - 0xDC00)) :: codePoints r'
      else u :: codePoints r
    | [] => [u]
    end
  end.

Definition jsstring_eqb (a b : jsstring) : bool := bool_decide (a = b).

(** [String.prototype.substr(0, n)] for a non-negative [n]. *)
Definition substr0 (s : jsstring) (n : nat) : jsstring := take n s.

Fixpoint uint_units (d : Decimal.uint) : jsstring :=
  match d with
  | Decimal.Nil => []
  | Decimal.D0 r => 48 :: uint_units r
  | Decimal.D1 r => 49 :: uint_units r
  | Decimal.D2 r => 50 :: uint_units r
  | Decimal.D3 r => 51 :: uint_units r
  | Decimal.D4 r => 52 :: uint_units r
  | Decimal.D5 r => 53 :: uint_units r
  | Decimal.D6 r => 54 :: uint_units r
  | Decimal.D7 r => 55 :: uint_units r
  | Decimal.D8 r => 56 :: uint_units r
  | Decimal.D9 r => 57 :: uint_units r
  end.

(** The decimal digits of a non-negative integer. *)
Definition decimal (n : Z) : jsstring := uint_units (N.to_uint (Z.to_N n)).

End JsString.
Export JsString.

(** ** JavaScript numbers: IEEE-754 binary64 *)

Module JsNumber.

Definition number := spec_float.

Definition NaN : number := S754_nan.
Definition of_Z (z : Z) : number := binary_normalize 53 1024 z 0 false.
Definition num_mul : number -> number -> number := SFmul 53 1024.

(** [a === b] on two numbers. *)
Definition num_eqb : number -> number -> bool := SFeqb.

(** [Math.round]: the closest integral number, ties towards +infinity;
    arguments in [-0.5, 0) give -0. *)
Definition Math_round (x : number) : number :=
  match x with
  | S754_finite s m e =>
    if 0 <=? e then x
    else
      let n := (2 * cond_Zopp s (Zpos m) + 2 ^ (- e)) / 2 ^ (- e + 1) in
      if n =? 0 then S754_zero s else of_Z n
  | _ => x
  end.

(** [ToIntegerOrInfinity] on a finite number: truncation towards zero. *)
Definition trunc_Z (x : number) : option Z :=
  match x with
  | S754_zero _ => Some 0
  | S754_finite s m e =>
    Some (cond_Zopp s (if 0 <=? e then Zpos m * 2 ^ e else Zpos m / 2 ^ (- e)))
  | _ => None
  end.

(** *** Number::toString, radix 10 *)

(** Comparison of [a * 10^p] with [b * 2^q], for non-negative [a], [b]. *)
Definition cmp_scaled (a p b q : Z) : comparison :=
  (a * 10 ^ Z.max p 0 * 2 ^ Z.max (- q) 0
     ?= b * 2 ^ Z.max q 0 * 10 ^ Z.max (- p) 0).

(** Does the real [s * 10^p] round to the positive float [m * 2^e]?  The
    rounding interval reaches half-way to either neighbour and contains its
    end points when [m] is even. *)
Definition rounds_to (m e s p : Z) : bool :=
  let '(lm, le) :=
    if (m =? 2 ^ 52) && (-1074 <? e) then (4 * m - 1, e - 2)
    else (2 * m - 1, e - 1) in
  let above :=
    match cmp_scaled s p lm le with
    | Gt => true | Eq => Z.even m | Lt => false
    end in
  let below :=
    match cmp_scaled s p (2 * m + 1) (e - 1) with
    | Lt => true | Eq => Z.even m | Gt => false
    end in
  above && below.

(** The least [n], searched upwards from [n], with [m * 2^e < 10^n]. *)
Fixpoint decade_from (fuel : nat) (m e n : Z) : Z :=
  match fuel with
  | O => n
  | S fuel' =>
    match cmp_scaled 1 n m e with
    | Gt => n
    | _ => decade_from fuel' m e (n + 1)
    end
  end.

Definition decade (m e : Z) : Z :=
  let bits := Z.log2 m + 1 + e in
  decade_from 8 m e ((bits - 1) * 30103 / 100000 - 1).

(** For a given digit count [k]: the digit string [s] and the exponent [n]
    with [10^(k-1) <= s < 10^k] such that [s * 10^(n-k)] rounds to the
    float, closest to it if there are several. *)
Definition digits_at (m e n0 k : Z) : option (Z * Z) :=
  let p := n0 - k in
  let s1 := (m * 2 ^ Z.max e 0 * 10 ^ Z.max (- p) 0)
              / (2 ^ Z.max (- e) 0 * 10 ^ Z.max p 0) in
  let lo := if (10 ^ (k - 1) <=? s1) && rounds_to m e s1 p
            then Some (s1, n0) else None in
  let hi := if rounds_to m e (s1 + 1) p
            then Some (if s1 + 1 <? 10 ^ k then (s1 + 1, n0)
                       else (10 ^ (k - 1), n0 + 1))
            else None in
  match lo, hi with
  | Some a, Some b =>
    match cmp_scaled (2 * s1 + 1) p (2 * m) e with
    | Gt => Some a
    | Lt => Some b
    | Eq => if Z.even s1 then Some a else Some b
    end
  | Some a, None => Some a
  | None, Some b => Some b
  | None, None => None
  end.

Fixpoint shortest_from (fuel : nat) (m e n0 k : Z) : Z * Z * Z :=
  match fuel with
  | O => (m, k, n0)
  | S fuel' =>
    match digits_at m e n0 k with
    | Some (s, n) => (s, k, n)
    | None => shortest_from fuel' m e n0 (k + 1)
    end
  end.

(** The triple [(s, k, n)] of Number::toString: [k] as small as possible. *)
Definition shortest (m e : Z) : Z * Z * Z :=
  shortest_from 17 m e (decade m e) 1.

Definition zeros (n : Z) : jsstring := repeat 48 (Z.to_nat n).

Definition format_digits (s k n : Z) : jsstring :=
  let ds := decimal s in
  if (-5 <=? n) && (n <=? 21) then
    if k <=? n then ds ++ zeros (n - k)
    else if 0 <? n then take (Z.to_nat n) ds ++ utf16 "." ++ drop (Z.to_nat n) ds
    else utf16 "0." ++ zeros (- n) ++ ds
  else
    (if k =? 1 then ds else take 1 ds ++ utf16 "." ++ drop 1 ds)
      ++ utf16 "e" ++ (if 0 <=? n - 1 then utf16 "+" else utf16 "-")
      ++ decimal (Z.abs (n - 1)).

Definition Number_toString (x : number) : jsstring :=
  match x with
  | S754_nan => utf16 "NaN"
  | S754_zero _ => utf16 "0"
  | S754_infinity s => (if s then utf16 "-" else []) ++ utf16 "Infinity"
  | S754_finite s m e =>
    let '(d, k, n) := shortest (Zpos m) e in
    (if s then utf16 "-" else []) ++ format_digits d k n
  end.

End JsNumber.
Export JsNumber.


(** ** JavaScript values, as [JSON.parse] produces them *)

Module JsValue.

Inductive value :=
| VUndefined
| VNull
| VBool (b : bool)
| VNum (n : number)
| VStr (s : jsstring)
| VArr (elems : list value)
| VObj (props : list (jsstring * value)).

(** [ToBoolean]: what [if (v)], [!v], [a && b] and [a ? b : c] test. *)
Definition ToBoolean (v : value) : bool :=
  match v with
  | VUndefined | VNull => false
  | VBool b => b
  | VNum (S754_zero _) | VNum S754_nan => false
  | VNum _ => true
  | VStr s => negb (bool_decide (s = []))
  | VArr _ | VObj _ => true
  end.

Fixpoint assoc (k : jsstring) (ps : list (jsstring * value)) : option value :=
  match ps with
  | [] => None
  | (k', v) :: r => if jsstring_eqb k k' then Some v else assoc k r
  end.

(** [v.k] on a value that is neither [undefined] nor [null], for a property
    name [k] that no built-in prototype defines ([hours], [minutes],
    [location], [point], [name]): the own property of an object, and
    [undefined] on everything else. *)
Definition prop (v : value) (k : jsstring) : value :=
  match v with
  | VObj ps => default VUndefined (assoc k ps)
  | _ => VUndefined
  end.

(** [a === b] where [a] is a number. *)
Definition strict_eq_num (a : number) (b : value) : bool :=
  match b with
  | VNum n => num_eqb a n
  | _ => false
  end.

Fixpoint join (sep : jsstring) (l : list jsstring) : jsstring :=
  match l with
  | [] => []
  | [x] => x
  | x :: r => x ++ sep ++ join sep r
  end.

(** [ToString], as a template literal applies it to a substitution, on the
    values a configuration holds in a string-typed place: primitives, arrays
    of them, and objects that have no member [toString] of their own.  (On an
    object with such a member, which after [JSON.parse] is never a function,
    the conversion throws; the properties below that depend on the conversion
    of a name take the name to be a string.) *)
Fixpoint ToString (v : value) : jsstring :=
  match v with
  | VUndefined => utf16 "undefined"
  | VNull => utf16 "null"
  | VBool b => if b then utf16 "true" else utf16 "false"
  | VNum n => Number_toString n
  | VStr s => s
  | VArr l =>
    join (utf16 ",")
         (map (fun x => match x with
                        | VUndefined | VNull => []
                        | _ => ToString x
                        end) l)
  | VObj _ => utf16 "[object Object]"
  end.

End JsValue.
Export JsValue.

#[global] Arguments utf16 : simpl never.
#[global] Arguments of_Z : simpl never.
#[global] Arguments Number_toString : simpl never.
#[global] Arguments ToString : simpl never.

(** ** Dates *)

Module JsDate.

(** A [Date] holds a time value in milliseconds since the epoch, or is
    invalid. *)
Definition Date := option Z.

Definition msPerMinute : Z := 60000.
Definition msPerHour : Z := 3600000.

(** [new Date(v)] for a number [v]: [TimeClip]. *)
Definition newDate (v : number) : Date :=
  match trunc_Z v with
  | Some t => if Z.abs t <=? 8640000000000000 then Some t else None
  | None => None
  end.

Definition HourFromTime (t : Z) : Z := (t / msPerHour) mod 24.
Definition MinFromTime (t : Z) : Z := (t / msPerMinute) mod 60.

End JsDate.
Export JsDate.

(** ** The host: what the process the plugin runs in decides

[LocalTZA t] is the offset in milliseconds of local time from UTC at time
[t]; [JSON_parse] is [JSON.parse] on a string, [None] standing for the
[SyntaxError] it throws. *)

Class Host := {
  LocalTZA : Z -> Z;
  JSON_parse : jsstring -> option value
}.

Section HostDate.
Context `{Host}.

Definition getHours (d : Date) : number :=
  match d with
  | Some t => of_Z (HourFromTime (t + LocalTZA t))
  | None => NaN
  end.

Definition getMinutes (d : Date) : number :=
  match d with
  | Some t => of_Z (MinFromTime (t + LocalTZA t))
  | None => NaN
  end.

End HostDate.

(** ** Effects: process-wide statics, exceptions, and the observable trace *)

Module Effects.

Inductive Exn :=
| TypeError (msg : jsstring).

Inductive Result (A : Type) :=
| Ok (a : A)
| Throw (e : Exn).
Arguments Ok {A} a.
Arguments Throw {A} e.

Record AccountData := { userId : jsstring }.

(** The options object handed to the forecast client's constructor. *)
Record Forecast := {
  service : jsstring;
  key : value;
  units : jsstring;
  cache : bool;
  ttl_minutes : Z;
  ttl_seconds : Z
}.

(** The static field [forecast]: not yet assigned, [null], or a client. *)
Inductive ForecastRef :=
| FUndefined
| FNull
| FClient (c : Forecast).

Definition forecast_truthy (f : ForecastRef) : bool :=
  match f with
  | FClient _ => true
  | _ => false
  end.

(** What the plugin does to the outside, in order. *)
Inductive Event :=
| GetEnvData (fullName key : jsstring)
| LogT (tag : jsstring)
| LogW (msg : jsstring)
| LogE (msg : jsstring)
| NewForecast (options : Forecast)
| ForecastGet (client : Forecast) (point : value)
| PostTweet (account : AccountData) (text : jsstring)
| Finish (isProcessed : bool).

(** [private static scheduleList] and [private static forecast] of the
    class, together with the trace of events so far. *)
Record State := {
  scheduleList : value;
  forecast : ForecastRef;
  trace : list Event
}.

(** A freshly started process: both statics unassigned. *)
Definition initial : State :=
  {| scheduleList := VUndefined; forecast := FUndefined; trace := [] |}.

Definition M (A : Type) : Type := State -> Result A * State.

#[export] Instance M_ret : MRet M := fun A a st => (Ok a, st).

#[export] Instance M_bind : MBind M := fun A B f m st =>
  match m st with
  | (Ok a, st') => f a st'
  | (Throw e, st') => (Throw e, st')
  end.

Definition throw {A} (e : Exn) : M A := fun st => (Throw e, st).

Definition liftR {A} (r : Result A) : M A := fun st => (r, st).

(** The state with the events [evs] appended to its trace. *)
Definition add_events (st : State) (evs : list Event) : State :=
  {| scheduleList := scheduleList st;
     forecast := forecast st;
     trace := trace st ++ evs |}.

Definition emit (e : Event) : M unit := fun st => (Ok tt, add_events st [e]).

Definition get_scheduleList : M value := fun st => (Ok (scheduleList st), st).
Definition get_forecast : M ForecastRef := fun st => (Ok (forecast st), st).

Definition set_scheduleList (v : value) : M unit := fun st =>
  (Ok tt, {| scheduleList := v; forecast := forecast st; trace := trace st |}).

Definition set_forecast (f : ForecastRef) : M unit := fun st =>
  (Ok tt, {| scheduleList := scheduleList st; forecast := f; trace := trace st |}).

(** [o.k] for an [o] that may be [undefined] or [null]. *)
Definition get (o : value) (k : jsstring) : Result value :=
  match o with
  | VUndefined | VNull =>
    Throw (TypeError (utf16 "Cannot read properties of " ++ ToString o
                        ++ utf16 " (reading '" ++ k ++ utf16 "')"))
  | _ => Ok (prop o k)
  end.

End Effects.
Export Effects.

(** ** The forecast payload, as the interfaces of [part_000] declare it

Only the fields the plugin reads are kept.  A missing object on the way
to the hourly samples is [None]; the samples themselves are objects with
their fields, as [interface Weather] has them (a [null] in the place of a
sample is not a payload of this type). *)

Record Weather := {
  icon : jsstring;
  temperature : number;
  precipProbability : number;
  time : number
}.

Record HourlyBlock := { data : option (list Weather) }.

Record WeatherForcast := {
  currently : option Weather;
  hourly : option HourlyBlock
}.

(** The error argument of the fetch callback: [null], or an error object. *)
Record FetchError := { message : jsstring }.

(** What the forecast client answers to [get]: nothing (the callback is
    never called), or one call of the callback with [(error, weather)]. *)
Inductive FetchResponse :=
| NoResponse
| Response (error : option FetchError) (weather : option WeatherForcast).

Definition nl : jsstring := [10].

Definition bind {A B} (m : M A) (f : A -> M B) : M B := M_bind A B f m.

Notation "x <- m ;; k" := (bind m (fun x => k))
  (at level 100, m at next level, right associativity).
Notation "m ;;; k" := (bind m (fun _ => k))
  (at level 100, right associativity).

(** The environment store behind [OdnPlugins.getEnvData(fullName, key)]. *)
Definition EnvStore := jsstring -> jsstring -> value.

(** ** [src/weatherToday.ts] *)

Module WeatherToday.

Module WeatherTodayEnvKey.
Definition FullName : jsstring := utf16 "PLUGINSBATCHWEATHERTODAY".
Definition Schedules : jsstring := utf16 "SCHEDULES".
Definition ForecastKey : jsstring := utf16 "FORECAST_KEY".
End WeatherTodayEnvKey.

(** The instance fields set by the constructor. *)
Record WeatherToday := {
  accountData : AccountData;
  nowDate : Date;
  fullName : jsstring
}.

Definition getEnvData (env : EnvStore) (fullName key : jsstring) : M value :=
  emit (GetEnvData fullName key) ;;; mret (env fullName key).

Section Class.
Context `{Host}.

Definition getSchedules (env : EnvStore) (accountData : AccountData) : M value :=
  let key := WeatherTodayEnvKey.Schedules ++ utf16 "_" ++ userId accountData in
  raw <- getEnvData env WeatherTodayEnvKey.FullName key ;;
  match JSON_parse (ToString raw) with
  | Some result => mret result
  | None =>
    emit (LogW (utf16 "Invalid environments data format.")) ;;;
    mret (VArr [])
  end.

(** The callback given to [find]; [s && a && b] is truthy exactly when
    all three are. *)
Definition matches (hours minutes : number) (s : value) : bool :=
  ToBoolean s
  && strict_eq_num hours (prop s (utf16 "hours"))
  && strict_eq_num minutes (prop s (utf16 "minutes")).

(** [Array.prototype.find]: the first element the callback accepts, or
    [undefined]. *)
Definition Array_find (f : value -> bool) (l : list value) : value :=
  default VUndefined (snd <$> list_find (fun s => f s = true) l).

Definition getMatchedSchedule (nowDate : Date) (scheduleList : value)
  : Result value :=
  let hours := getHours nowDate in
  let minutes := getMinutes nowDate in
  match scheduleList with
  | VArr l => Ok (Array_find (matches hours minutes) l)
  | VUndefined | VNull =>
    Throw (TypeError (utf16 "Cannot read properties of "
                        ++ ToString scheduleList
                        ++ utf16 " (reading 'find')"))
  | _ => Throw (TypeError (utf16 "scheduleList.find is not a function"))
  end.

Definition getForecastKey (env : EnvStore) (accountData : AccountData) : M value :=
  key <- getEnvData env WeatherTodayEnvKey.FullName
           (WeatherTodayEnvKey.ForecastKey ++ utf16 "_" ++ userId accountData) ;;
  (if negb (ToBoolean key)
   then emit (LogW (utf16 "Could not load forecast key from environments."))
   else mret tt) ;;;
  mret key.

Definition getForecast (key : value) : M ForecastRef :=
  if negb (ToBoolean key) then mret FNull
  else
    let options := {| service := utf16 "darksky";
                      key := key;
                      units := utf16 "celcius";
                      cache := true;
                      ttl_minutes := 27;
                      ttl_seconds := 45 |} in
    emit (NewForecast options) ;;; mret (FClient options).

Definition isValid (env : EnvStore) (accountData : AccountData) (nowDate : Date)
  : M bool :=
  cached <- get_scheduleList ;;
  (if negb (ToBoolean cached)
   then
     loaded <- getSchedules env accountData ;;
     set_scheduleList loaded ;;;
     emit (LogT (utf16 "scheduleList"))
   else mret tt) ;;;
  client <- get_forecast ;;
  (if negb (forecast_truthy client)
   then
     key <- getForecastKey env accountData ;;
     built <- getForecast key ;;
     set_forecast built ;;;
     emit (LogT (utf16 "forecast"))
   else mret tt) ;;;
  list <- get_scheduleList ;;
  found <- liftR (getMatchedSchedule nowDate list) ;;
  mret (if ToBoolean found then true else false).

Definition getEmoji (icon : jsstring) : jsstring :=
  if jsstring_eqb icon (utf16 "clear-day") then utf16 "☀️"
  else if jsstring_eqb icon (utf16 "clear-night") then utf16 "🌙"
  else if jsstring_eqb icon (utf16 "rain") then utf16 "🌧"
  else if jsstring_eqb icon (utf16 "snow") then utf16 "☃️"
  else if jsstring_eqb icon (utf16 "sleet") then utf16 "🌨"
  else if jsstring_eqb icon (utf16 "wind") then utf16 "💨"
  else if jsstring_eqb icon (utf16 "fog") then utf16 "🌫"
  else if jsstring_eqb icon (utf16 "cloudy") then utf16 "☁️"
  else if jsstring_eqb icon (utf16 "partly-cloudy-day") then utf16 "⛅️"
  else if jsstring_eqb icon (utf16 "partly-cloudy-night") then utf16 "☁️"
  else utf16 "❓".

Definition inter : nat := 3.
Definition count : nat := 8.

(** The body of [for (let i = 0; i < count; i++)], from [i] on, with
    [todo] rounds left. *)
Fixpoint forecastLoop (samples : list Weather) (todo i : nat) (text : jsstring)
  : Result jsstring :=
  match todo with
  | O => Ok text
  | S todo' =>
    match samples !! (i * inter)%nat with
    | None =>
      Throw (TypeError (utf16 "Cannot read properties of undefined (reading 'time')"))
    | Some data =>
      let time := newDate (num_mul (time data) (of_Z 1000)) in
      let text := text ++ (Number_toString (getHours time) ++ utf16 "時" ++ nl) in
      let text := text ++ (getEmoji (icon data) ++ utf16 " "
                             ++ Number_toString (Math_round (temperature data))
                             ++ utf16 "℃ "
                             ++ Number_toString
                                  (num_mul (precipProbability data) (of_Z 100))
                             ++ utf16 "％" ++ nl) in
      let text := text ++ nl in
      forecastLoop samples todo' (S i) text
    end
  end.

(** Lines 116-119: the length limit. *)
Definition limit (text : jsstring) : jsstring :=
  if (140 <? length text)%nat
  then substr0 text 139 ++ utf16 "…"
  else text.

(** Lines 96-119 of the fetch callback: the text of the post. *)
Definition tweetText (schedule : value) (weather : option WeatherForcast)
  : Result jsstring :=
  match weather with
  | None =>
    Throw (TypeError (utf16 "Cannot read properties of undefined (reading 'hourly')"))
  | Some w =>
    match hourly w with
    | None =>
      Throw (TypeError (utf16 "Cannot read properties of undefined (reading 'data')"))
    | Some h =>
      match data h with
      | None =>
        Throw (TypeError (utf16 "Cannot read properties of undefined (reading 'length')"))
      | Some samples =>
        if (inter * count <? length samples)%nat then
          match currently w with
          | None =>
            Throw (TypeError
                     (utf16 "Cannot read properties of undefined (reading 'time')"))
          | Some _ =>
            let text :=
              ToString (prop (prop schedule (utf16 "location")) (utf16 "name"))
                ++ utf16 "の天気予報" ++ nl ++ nl in
            match forecastLoop samples count 0 text with
            | Ok text => Ok (limit text)
            | Throw e => Throw e
            end
          end
        else Ok (limit (utf16 "天気予報の取得に失敗しました。"))
      end
    end
  end.

(** The callback handed to [forecast.get]. *)
Definition onForecast (self : WeatherToday) (schedule : value)
           (cb : bool -> M unit) (isSuccess : bool)
           (error : option FetchError) (weather : option WeatherForcast)
  : M unit :=
  match error with
  | Some _ =>
    emit (LogE (utf16 "Error occurred at getting forecast resources."))
  | None =>
    text <- liftR (tweetText schedule weather) ;;
    emit (PostTweet (accountData self) text) ;;;
    cb isSuccess
  end.

(** [resp] is the forecast client's answer to this [get], [isSuccess]
    what [postTweet] reports. *)
Definition tweetWeather (self : WeatherToday) (schedule : value)
           (cb : bool -> M unit) (resp : FetchResponse) (isSuccess : bool)
  : M unit :=
  ref <- get_forecast ;;
  match ref with
  | FClient client =>
    location <- liftR (get schedule (utf16 "location")) ;;
    point <- liftR (get location (utf16 "point")) ;;
    emit (ForecastGet client point) ;;;
    match resp with
    | NoResponse => mret tt
    | Response error weather => onForecast self schedule cb isSuccess error weather
    end
  | _ =>
    throw (TypeError (utf16 "Cannot read properties of "
                        ++ (match ref with
                            | FNull => utf16 "null"
                            | _ => utf16 "undefined"
                            end)
                        ++ utf16 " (reading 'get')"))
  end.

Definition run (self : WeatherToday) (resp : FetchResponse) (isSuccess : bool)
  : M unit :=
  list <- get_scheduleList ;;
  schedule <- liftR (getMatchedSchedule (nowDate self) list) ;;
  tweetWeather self schedule (fun isSuccess => emit (Finish isSuccess))
               resp isSuccess.

End Class.

End WeatherToday.

(** ** [src/unnamed/part_000]

The file repeats [src/weatherToday.ts] up to [tweetWeather]; what differs
is the text of the post (optional chaining on the payload, rounding of
the precipitation percentage) and the emoji lookup, now a table. *)

Module Part000.

Import WeatherToday.

(** The own members of the object literal [WeatherIcons]. *)
Definition WeatherIcons : gmap jsstring jsstring :=
  <[utf16 "clear-day" := utf16 "☀"]>
  (<[utf16 "clear-night" := utf16 "🌙"]>
  (<[utf16 "rain" := utf16 "🌧"]>
  (<[utf16 "snow" := utf16 "☃"]>
  (<[utf16 "sleet" := utf16 "🌨"]>
  (<[utf16 "wind" := utf16 "💨"]>
  (<[utf16 "fog" := utf16 "🌫"]>
  (<[utf16 "cloudy" := utf16 "☁"]>
  (<[utf16 "partly-cloudy-day" := utf16 "⛅"]>
  (<[utf16 "partly-cloudy-night" := utf16 "☁"]> ∅))))))))).

(** The names of the members an object literal inherits from
    [Object.prototype]. *)
Definition Object_prototype_names : list jsstring :=
  [ utf16 "constructor"; utf16 "__defineGetter__"; utf16 "__defineSetter__";
    utf16 "hasOwnProperty"; utf16 "__lookupGetter__"; utf16 "__lookupSetter__";
    utf16 "isPrototypeOf"; utf16 "propertyIsEnumerable"; utf16 "toString";
    utf16 "valueOf"; utf16 "__proto__"; utf16 "toLocaleString" ].

(** What a property read on [WeatherIcons] finds: an own glyph, a member
    inherited from [Object.prototype], or nothing ([undefined]). *)
Inductive Member :=
| Own (glyph : jsstring)
| Inherited (name : jsstring)
| Absent.

(** [WeatherIcons[icon]]: own members first, then the prototype. *)
Definition WeatherIcons_get (icon : jsstring) : Member :=
  match WeatherIcons !! icon with
  | Some glyph => Own glyph
  | None =>
    if bool_decide (icon ∈ Object_prototype_names) then Inherited icon
    else Absent
  end.

(** The string a template literal makes of an inherited member: under
    [__proto__] the member is [Object.prototype] itself, under any other name
    a built-in function, printed as Node prints one; the function under
    [constructor] is [Object]. *)
Definition inherited_text (name : jsstring) : jsstring :=
  if jsstring_eqb name (utf16 "__proto__") then utf16 "[object Object]"
  else
    utf16 "function "
      ++ (if jsstring_eqb name (utf16 "constructor") then utf16 "Object" else name)
      ++ utf16 "() { [native code] }".

Section Class.
Context `{Host}.

(** [WeatherIcons[icon] || '❓'], kept as the text that line 112 interpolates.
    An own glyph is a string and stands for itself; an inherited member is
    an object or a function, truthy, so that [||] keeps it, and stands for
    its string conversion. *)
Definition getEmoji (icon : jsstring) : jsstring :=
  match WeatherIcons_get icon with
  | Own glyph => if ToBoolean (VStr glyph) then glyph else utf16 "❓"
  | Inherited name => inherited_text name
  | Absent => utf16 "❓"
  end.

Fixpoint forecastLoop (samples : list Weather) (todo i : nat) (text : jsstring)
  : Result jsstring :=
  match todo with
  | O => Ok text
  | S todo' =>
    match samples !! (i * inter)%nat with
    | None =>
      Throw (TypeError (utf16 "Cannot read properties of undefined (reading 'time')"))
    | Some data =>
      let time := newDate (num_mul (time data) (of_Z 1000)) in
      let temp := Math_round (temperature data) in
      let precipProbability :=
        Math_round (num_mul (precipProbability data) (of_Z 100)) in
      let text := text ++ (Number_toString (getHours time) ++ utf16 "時" ++ nl) in
      let text := text ++ (getEmoji (icon data) ++ utf16 " "
                             ++ Number_toString temp ++ utf16 "℃ "
                             ++ Number_toString precipProbability
                             ++ utf16 "％" ++ nl) in
      let text := text ++ nl in
      forecastLoop samples todo' (S i) text
    end
  end.

(** [weather?.hourly?.data]. *)
Definition hourlyData (weather : option WeatherForcast) : option (list Weather) :=
  w ← weather; h ← hourly w; data h.

(** Lines 96-123 of the fetch callback: the text of the post. *)
Definition tweetText (schedule : value) (weather : option WeatherForcast)
  : Result jsstring :=
  if (inter * count <? default 0%nat (length <$> hourlyData weather))%nat then
    let text :=
      ToString (prop (prop schedule (utf16 "location")) (utf16 "name"))
        ++ utf16 "の天気予報" ++ nl ++ nl in
    match forecastLoop (default [] (hourlyData weather)) count 0 text with
    | Ok text => Ok (limit text)
    | Throw e => Throw e
    end
  else Ok (limit (utf16 "天気予報の取得に失敗しました。")).

Definition onForecast (self : WeatherToday) (schedule : value)
           (cb : bool -> M unit) (isSuccess : bool)
           (error : option FetchError) (weather : option WeatherForcast)
  : M unit :=
  match error with
  | Some _ =>
    emit (LogE (utf16 "Error occurred at getting forecast resources."))
  | None =>
    text <- liftR (tweetText schedule weather) ;;
    emit (PostTweet (accountData self) text) ;;;
    cb isSuccess
  end.

Definition tweetWeather (self : WeatherToday) (schedule : value)
           (cb : bool -> M unit) (resp : FetchResponse) (isSuccess : bool)
  : M unit :=
  ref <- get_forecast ;;
  match ref with
  | FClient client =>
    location <- liftR (get schedule (utf16 "location")) ;;
    point <- liftR (get location (utf16 "point")) ;;
    emit (ForecastGet client point) ;;;
    match resp with
    | NoResponse => mret tt
    | Response error weather => onForecast self schedule cb isSuccess error weather
    end
  | _ =>
    throw (TypeError (utf16 "Cannot read properties of "
                        ++ (match ref with
                            | FNull => utf16 "null"
                            | _ => utf16 "undefined"
                            end)
                        ++ utf16 " (reading 'get')"))
  end.

Definition run (self : WeatherToday) (resp : FetchResponse) (isSuccess : bool)
  : M unit :=
  list <- get_scheduleList ;;
  schedule <- liftR (getMatchedSchedule (nowDate self) list) ;;
  tweetWeather self schedule (fun isSuccess => emit (Finish isSuccess))
               resp isSuccess.

End Class.

End Part000.

(** ** A concrete host

A reader for JSON texts (RFC 8259 grammar, numbers rounded to the nearest
binary64) and a fixed offset of nine hours: the host that the examples
and the concrete runs below are evaluated on. *)

Module SampleHost.

Definition is_ws (u : Z) : bool := (u =? 32) || (u =? 9) || (u =? 10) || (u =? 13).
Definition is_digit (u : Z) : bool := (48 <=? u) && (u <=? 57).

Fixpoint skip_ws (s : jsstring) : jsstring :=
  match s with
  | u :: r => if is_ws u then skip_ws r else s
  | [] => []
  end.

(** Leading digits of [s]: their value on top of [acc], how many, the rest. *)
Fixpoint take_digits (s : jsstring) (acc n : Z) : Z * Z * jsstring :=
  match s with
  | u :: r => if is_digit u then take_digits r (acc * 10 + (u - 48)) (n + 1)
              else (acc, n, s)
  | [] => (acc, n, [])
  end.

(** The binary64 nearest to [(-1)^neg * d * 10^e]. *)
Definition decimal_to_number (neg : bool) (d e : Z) : number :=
  if d =? 0 then S754_zero neg
  else if 0 <=? e then binary_round 53 1024 neg (Z.to_pos (d * 10 ^ e)) 0
  else
    let den := 10 ^ (- e) in
    let k := Z.max 0 (Z.log2 den - Z.log2 d + 64) in
    let q := (d * 2 ^ k) / den in
    let sticky := if (d * 2 ^ k) mod den =? 0 then 0 else 1 in
    binary_round 53 1024 neg (Z.to_pos (2 * q + sticky)) (- k - 1).

Definition parse_exponent (s : jsstring) : option (Z * jsstring) :=
  match s with
  | u :: r =>
    if (u =? 101) || (u =? 69) then
      let '(sign, r) :=
        match r with
        | 45 :: r' => (-1, r')
        | 43 :: r' => (1, r')
        | _ => (1, r)
        end in
      let '(x, n, r) := take_digits r 0 0 in
      if n =? 0 then None else Some (sign * x, r)
    else Some (0, s)
  | [] => Some (0, s)
  end.

Definition parse_number (s : jsstring) : option (value * jsstring) :=
  let '(neg, s) := match s with 45 :: r => (true, r) | _ => (false, s) end in
  let '(ip, n, r) := take_digits s 0 0 in
  if (n =? 0) || ((1 <? n) && bool_decide (head s = Some 48)) then None
  else
    let frac :=
      match r with
      | 46 :: r' =>
        let '(d, fn, r'') := take_digits r' ip 0 in
        if fn =? 0 then None else Some (d, fn, r'')
      | _ => Some (ip, 0, r)
      end in
    match frac with
    | None => None
    | Some (d, fn, r) =>
      match parse_exponent r with
      | None => None
      | Some (x, r) => Some (VNum (decimal_to_number neg d (x - fn)), r)
      end
    end.

Definition hex_val (u : Z) : option Z :=
  if is_digit u then Some (u - 48)
  else if (97 <=? u) && (u <=? 102) then Some (u - 87)
  else if (65 <=? u) && (u <=? 70) then Some (u - 55)
  else None.

(** The characters of a string literal after its opening quote. *)
Fixpoint parse_string (s acc : jsstring) : option (jsstring * jsstring) :=
  match s with
  | [] => None
  | 34 :: r => Some (rev acc, r)
  | 92 :: e :: r =>
    if e =? 117 then
      match r with
      | a :: b :: c :: d :: r' =>
        match hex_val a, hex_val b, hex_val c, hex_val d with
        | Some a, Some b, Some c, Some d =>
          parse_string r' ((a * 4096 + b * 256 + c * 16 + d) :: acc)
        | _, _, _, _ => None
        end
      | _ => None
      end
    else
      let plain :=
        if (e =? 34) || (e =? 92) || (e =? 47) then Some e
        else if e =? 98 then Some 8
        else if e =? 102 then Some 12
        else if e =? 110 then Some 10
        else if e =? 114 then Some 13
        else if e =? 116 then Some 9
        else None in
      match plain with
      | Some u => parse_string r (u :: acc)
      | None => None
      end
  | u :: r => if (u <? 32) || (u =? 92) then None else parse_string r (u :: acc)
  end.

Fixpoint strip_prefix (p s : jsstring) : option jsstring :=
  match p, s with
  | [], _ => Some s
  | a :: p', b :: s' => if a =? b then strip_prefix p' s' else None
  | _ :: _, [] => None
  end.

(** Members of an object are kept most recent first, so that a repeated
    name reads as its last occurrence. *)
Fixpoint parse_value (fuel : nat) (s : jsstring) : option (value * jsstring) :=
  match fuel with
  | O => None
  | S fuel' =>
    match skip_ws s with
    | 34 :: r =>
      '(str, r) ← parse_string r []; Some (VStr str, r)
    | 91 :: r =>
      match skip_ws r with
      | 93 :: r' => Some (VArr [], r')
      | r' => parse_elements fuel' r' []
      end
    | 123 :: r =>
      match skip_ws r with
      | 125 :: r' => Some (VObj [], r')
      | r' => parse_members fuel' r' []
      end
    | 110 :: r => r' ← strip_prefix (utf16 "ull") r; Some (VNull, r')
    | 116 :: r => r' ← strip_prefix (utf16 "rue") r; Some (VBool true, r')
    | 102 :: r => r' ← strip_prefix (utf16 "alse") r; Some (VBool false, r')
    | s' => parse_number s'
    end
  end
with parse_elements (fuel : nat) (s : jsstring) (acc : list value)
  : option (value * jsstring) :=
  match fuel with
  | O => None
  | S fuel' =>
    '(v, r) ← parse_value fuel' s;
    match skip_ws r with
    | 44 :: r' => parse_elements fuel' r' (v :: acc)
    | 93 :: r' => Some (VArr (rev (v :: acc)), r')
    | _ => None
    end
  end
with parse_members (fuel : nat) (s : jsstring) (acc : list (jsstring * value))
  : option (value * jsstring) :=
  match fuel with
  | O => None
  | S fuel' =>
    match skip_ws s with
    | 34 :: r =>
      '(name, r) ← parse_string r [];
      match skip_ws r with
      | 58 :: r' =>
        '(v, r'') ← parse_value fuel' r';
        match skip_ws r'' with
        | 44 :: r3 => parse_members fuel' r3 ((name, v) :: acc)
        | 125 :: r3 => Some (VObj ((name, v) :: acc), r3)
        | _ => None
        end
      | _ => None
      end
    | _ => None
    end
  end.

Definition parse_json (s : jsstring) : option value :=
  match parse_value (2 * length s + 2) s with
  | Some (v, r) => if bool_decide (skip_ws r = []) then Some v else None
  | None => None
  end.

(** Japan Standard Time. *)
Definition jst (t : Z) : Z := 9 * msPerHour.

Definition host : Host := {| LocalTZA := jst; JSON_parse := parse_json |}.

End SampleHost.

(** ** Vocabulary of the properties *)

(** The ten sky-condition codes with the glyph [src/weatherToday.ts] gives
    each and the glyph [part_000] gives it. *)
Definition designated : list (string * string * string) :=
  [ ("clear-day", "☀️", "☀");
    ("clear-night", "🌙", "🌙");
    ("rain", "🌧", "🌧");
    ("snow", "☃️", "☃");
    ("sleet", "🌨", "🌨");
    ("wind", "💨", "💨");
    ("fog", "🌫", "🌫");
    ("cloudy", "☁️", "☁");
    ("partly-cloudy-day", "⛅️", "⛅");
    ("partly-cloudy-night", "☁️", "☁") ]%string.

Definition known_codes : list jsstring := map (fun d => utf16 (d.1.1)) designated.

Definition question_mark : jsstring := [0x2753].

(** *** A process lifetime: the calls the host makes, in order *)

Inductive Call :=
| CallIsValid (env : EnvStore) (accountData : AccountData) (nowDate : Date)
| CallRun (self : WeatherToday.WeatherToday) (resp : FetchResponse) (isSuccess : bool).

Definition Runner := WeatherToday.WeatherToday -> FetchResponse -> bool -> M unit.

(** The state after one call; an exception leaves the process running with
    whatever the call had done before it was thrown. *)
Definition step `{Host} (run : Runner) (st : State) (c : Call) : State :=
  match c with
  | CallIsValid env accountData nowDate =>
    snd (WeatherToday.isValid env accountData nowDate st)
  | CallRun self resp isSuccess => snd (run self resp isSuccess st)
  end.

Definition process `{Host} (run : Runner) (calls : list Call) (st : State) : State :=
  foldl (step run) st calls.

Definition is_schedules_read (e : Event) : bool :=
  match e with
  | GetEnvData _ k =>
    bool_decide (take 10 k = WeatherToday.WeatherTodayEnvKey.Schedules ++ utf16 "_")
  | _ => false
  end.

Definition is_key_read (e : Event) : bool :=
  match e with
  | GetEnvData _ k =>
    bool_decide (take 13 k = WeatherToday.WeatherTodayEnvKey.ForecastKey ++ utf16 "_")
  | _ => false
  end.

Definition is_client_built (e : Event) : bool :=
  match e with
  | NewForecast _ => true
  | _ => false
  end.

(** How many times the trace loads the schedule list, reads the forecast
    key, builds a forecast client. *)
Definition schedule_loads (tr : list Event) : nat := length (List.filter is_schedules_read tr).
Definition key_loads (tr : list Event) : nat := length (List.filter is_key_read tr).
Definition client_builds (tr : list Event) : nat := length (List.filter is_client_built tr).

Definition is_post (e : Event) : bool :=
  match e with
  | PostTweet _ _ => true
  | _ => false
  end.

Definition is_finish (e : Event) : bool :=
  match e with
  | Finish _ => true
  | _ => false
  end.

(** *** Keys, messages and traces of one invocation *)

Definition schedules_key_of (accountData : AccountData) : jsstring :=
  WeatherToday.WeatherTodayEnvKey.Schedules ++ utf16 "_" ++ userId accountData.

Definition forecast_key_of (accountData : AccountData) : jsstring :=
  WeatherToday.WeatherTodayEnvKey.ForecastKey ++ utf16 "_" ++ userId accountData.

(** What [getEnvData] holds for the schedules of an account. *)
Definition stored_schedules (env : EnvStore) (accountData : AccountData) : value :=
  env WeatherToday.WeatherTodayEnvKey.FullName (schedules_key_of accountData).

Definition stored_key (env : EnvStore) (accountData : AccountData) : value :=
  env WeatherToday.WeatherTodayEnvKey.FullName (forecast_key_of accountData).

Definition read_schedules (accountData : AccountData) : Event :=
  GetEnvData WeatherToday.WeatherTodayEnvKey.FullName (schedules_key_of accountData).

Definition read_key (accountData : AccountData) : Event :=
  GetEnvData WeatherToday.WeatherTodayEnvKey.FullName (forecast_key_of accountData).

Definition invalid_format_warning : Event :=
  LogW (utf16 "Invalid environments data format.").

Definition fetch_error_log : Event :=
  LogE (utf16 "Error occurred at getting forecast resources.").

(** The events one call of [run] can add, given the answer [resp] of the
    forecast client and the outcome [isSuccess] of the post: none at all (an
    exception before the fetch); the fetch alone (no answer, or an exception
    in the callback); the fetch and the error log; the fetch, the post and
    the completion callback. *)
Definition run_events (resp : FetchResponse) (isSuccess : bool) (evs : list Event)
  : Prop :=
  evs = [] \/
  exists client point,
    evs = [ForecastGet client point] \/
    (exists err weather,
       resp = Response (Some err) weather /\
       evs = [ForecastGet client point; fetch_error_log]) \/
    (exists weather account text,
       resp = Response None weather /\
       evs = [ForecastGet client point; PostTweet account text; Finish isSuccess]).

Definition location_of_undefined : Exn :=
  TypeError (utf16 "Cannot read properties of undefined (reading 'location')").

(** What the first block of [isValid] leaves in [scheduleList], and the
    events it adds, when the field holds [cached] on entry. *)
Definition schedule_load `{Host} (env : EnvStore) (accountData : AccountData)
           (cached : value) : value * list Event :=
  if ToBoolean cached then (cached, [])
  else
    match JSON_parse (ToString (stored_schedules env accountData)) with
    | Some parsed =>
      (parsed, [read_schedules accountData; LogT (utf16 "scheduleList")])
    | None =>
      (VArr [], [read_schedules accountData; invalid_format_warning;
                 LogT (utf16 "scheduleList")])
    end.

Definition client_options (key : value) : Forecast :=
  {| service := utf16 "darksky";
     key := key;
     units := utf16 "celcius";
     cache := true;
     ttl_minutes := 27;
     ttl_seconds := 45 |}.

(** What the second block of [isValid] leaves in [forecast], and the events
    it adds, when the field holds [cached] on entry. *)
Definition client_load (env : EnvStore) (accountData : AccountData)
           (cached : ForecastRef) : ForecastRef * list Event :=
  if forecast_truthy cached then (cached, [])
  else
    let key := stored_key env accountData in
    if ToBoolean key
    then (FClient (client_options key),
          [read_key accountData; NewForecast (client_options key);
           LogT (utf16 "forecast")])
    else (FNull,
          [read_key accountData;
           LogW (utf16 "Could not load forecast key from environments.");
           LogT (utf16 "forecast")]).

(** *** Schedule entries and post texts *)

(** The entry [s] is set for the hour [h] and the minute [m]: it carries
    numbers under [hours] and [minutes], equal ([===]) to [h] and [m]. *)
Definition entry_at (h m : number) (s : value) : Prop :=
  exists h' m',
    prop s (utf16 "hours") = VNum h' /\
    prop s (utf16 "minutes") = VNum m' /\
    num_eqb h h' = true /\ num_eqb m m' = true.

Definition is_array (v : value) : bool :=
  match v with
  | VArr _ => true
  | _ => false
  end.

Definition failure_text : jsstring := utf16 "天気予報の取得に失敗しました。".

Definition ellipsis : Z := 0x2026.

(** The header line of a post for the schedule entry [schedule]. *)
Definition header (schedule : value) : jsstring :=
  ToString (prop (prop schedule (utf16 "location")) (utf16 "name"))
    ++ utf16 "の天気予報" ++ nl ++ nl.

(** The local hour of a sample, as printed. *)
Definition hour_text `{Host} (d : Weather) : jsstring :=
  Number_toString (getHours (newDate (num_mul (time d) (of_Z 1000)))).

(** One time block as the specification words it: local hour, emoji,
    temperature rounded to an integer, precipitation probability as a rounded
    percentage, then a blank line. *)
Definition entry_rounded `{Host} (emoji : jsstring -> jsstring) (d : Weather) : jsstring :=
  hour_text d ++ utf16 "時" ++ nl
    ++ emoji (icon d) ++ utf16 " "
    ++ Number_toString (Math_round (temperature d)) ++ utf16 "℃ "
    ++ Number_toString (Math_round (num_mul (precipProbability d) (of_Z 100)))
    ++ utf16 "％" ++ nl
    ++ nl.

(** One time block with the percentage printed as the product comes out. *)
Definition entry_unrounded `{Host} (emoji : jsstring -> jsstring) (d : Weather) : jsstring :=
  hour_text d ++ utf16 "時" ++ nl
    ++ emoji (icon d) ++ utf16 " "
    ++ Number_toString (Math_round (temperature d)) ++ utf16 "℃ "
    ++ Number_toString (num_mul (precipProbability d) (of_Z 100))
    ++ utf16 "％" ++ nl
    ++ nl.

(** The samples shown: those at the indices 0, 3, ..., 21. *)
Definition shown (samples : list Weather) : list Weather :=
  omap (fun i => samples !! (i * WeatherToday.inter)%nat) (seq 0 WeatherToday.count).

(** The text before the length limit: the header, then one block for each
    sample shown. *)
Definition full_text_unrounded `{Host} (schedule : value) (samples : list Weather)
  : jsstring :=
  header schedule
    ++ concat (map (entry_unrounded WeatherToday.getEmoji) (shown samples)).

Definition full_text_rounded `{Host} (schedule : value) (samples : list Weather)
  : jsstring :=
  header schedule
    ++ concat (map (entry_rounded Part000.getEmoji) (shown samples)).

(** *** Kinds of events, and the errors of a read on a missing object *)

(** Reading the store, logging, building the client: configuration work. *)
Definition is_config_event (e : Event) : bool :=
  match e with
  | GetEnvData _ _ | LogT _ | LogW _ | NewForecast _ => true
  | _ => false
  end.

Definition is_fetch (e : Event) : bool :=
  match e with
  | ForecastGet _ _ => true
  | _ => false
  end.

Definition get_of_undefined : Exn :=
  TypeError (utf16 "Cannot read properties of undefined (reading 'get')").

Definition get_of_null : Exn :=
  TypeError (utf16 "Cannot read properties of null (reading 'get')").

Definition point_of_undefined : Exn :=
  TypeError (utf16 "Cannot read properties of undefined (reading 'point')").


(** *** Concrete inputs *)

Module Sample.

(** A JSON text written with ' for the double quote. *)
Definition json (s : string) : jsstring :=
  map (fun u => if u =? 39 then 34 else u) (utf16 s).

(** The number a decimal literal denotes. *)
Definition lit (s : string) : number :=
  match SampleHost.parse_json (utf16 s) with
  | Some (VNum n) => n
  | _ => NaN
  end.

Definition account : AccountData := {| userId := utf16 "1234" |}.

Definition schedules_key : jsstring := utf16 "SCHEDULES_1234".
Definition forecast_key : jsstring := utf16 "FORECAST_KEY_1234".

(** An environment store holding [schedules] and the API key [key] for
    [account], and nothing else. *)
Definition store (schedules key : value) : EnvStore := fun fullName k =>
  if jsstring_eqb fullName (utf16 "PLUGINSBATCHWEATHERTODAY") then
    if jsstring_eqb k schedules_key then schedules
    else if jsstring_eqb k forecast_key then key
    else VUndefined
  else VUndefined.

Definition tokyo_json : jsstring :=
  json "[{'hours':7,'minutes':30,'location':{'name':'Tokyo','point':[35.6,139.7]},'screenName':'bot'}]".

Definition tokyo_env : EnvStore := store (VStr tokyo_json) (VStr (utf16 "secret")).

(** 2020-01-01 00:00 in Japan, in seconds since the epoch. *)
Definition midnight : Z := 1577804400.

Definition at_0730 : Date := Some ((midnight + 7 * 3600 + 30 * 60) * 1000).
Definition at_0731 : Date := Some ((midnight + 7 * 3600 + 31 * 60) * 1000).

Definition plugin (now : Date) : WeatherToday.WeatherToday :=
  {| WeatherToday.accountData := account;
     WeatherToday.nowDate := now;
     WeatherToday.fullName := utf16 "PluginsBatchWeatherToday" |}.

(** The hourly sample [i] hours after midnight. *)
Definition sample (code : string) (temp prob : string) (i : nat) : Weather :=
  {| icon := utf16 code;
     temperature := lit temp;
     precipProbability := lit prob;
     time := of_Z (midnight + 3600 * Z.of_nat i) |}.

(** A payload of [n] hourly samples, all alike but for their time. *)
Definition payload (code temp prob : string) (n : nat) : WeatherForcast :=
  {| currently := Some (sample code temp prob 0);
     hourly := Some {| data := Some (map (sample code temp prob) (seq 0 n)) |} |}.

Definition place (name : string) : value :=
  VObj [ (utf16 "hours", VNum (of_Z 7));
         (utf16 "minutes", VNum (of_Z 30));
         (utf16 "location",
          VObj [ (utf16 "name", VStr (utf16 name));
                 (utf16 "point", VArr [VNum (lit "35.6"); VNum (lit "139.7")]) ]) ].

(** Stores whose schedules text is not JSON, is the number 5, is [null];
    a store without an API key. *)
Definition broken_env : EnvStore := store (VStr (utf16 "{hours:7}")) (VStr (utf16 "secret")).
Definition number_env : EnvStore := store (VStr (utf16 "5")) (VStr (utf16 "secret")).
Definition null_env : EnvStore := store (VStr (utf16 "null")) (VStr (utf16 "secret")).
Definition keyless_env : EnvStore := store (VStr tokyo_json) VUndefined.

(** The schedule list [tokyo_json] parses to. *)
Definition tokyo_list : list value :=
  match SampleHost.parse_json tokyo_json with
  | Some (VArr l) => l
  | _ => []
  end.

(** The process after one validity check at 07:30 on [tokyo_env]. *)
Definition checked : State :=
  snd (@WeatherToday.isValid SampleHost.host tokyo_env account at_0730 initial).

Definition other_account : AccountData := {| userId := utf16 "9999" |}.

(** A schedule entry for 07:30 that names no location. *)
Definition nowhere_json : jsstring := json "[{'hours':7,'minutes':30}]".

Definition nowhere_env : EnvStore := store (VStr nowhere_json) (VStr (utf16 "secret")).

Definition nowhere_list : list value :=
  match SampleHost.parse_json nowhere_json with
  | Some (VArr l) => l
  | _ => []
  end.

(** The process after one validity check at 07:30 on [nowhere_env], and on
    [keyless_env]. *)
Definition checked_nowhere : State :=
  snd (@WeatherToday.isValid SampleHost.host nowhere_env account at_0730 initial).

Definition checked_keyless : State :=
  snd (@WeatherToday.isValid SampleHost.host keyless_env account at_0730 initial).

(** A payload without its hourly block. *)
Definition bare_payload : WeatherForcast :=
  {| currently := Some (sample "clear-day" "20.4" "0.33" 0); hourly := None |}.

(** The entry of [tokyo_json], its location and point, the client built
    from the stored key, and the post for 25 samples on that entry. *)
Definition tokyo_entry : value := default VUndefined (head tokyo_list).
Definition tokyo_location : value := prop tokyo_entry (utf16 "location").
Definition tokyo_point : value := prop tokyo_location (utf16 "point").
Definition tokyo_client : Forecast := client_options (VStr (utf16 "secret")).

Definition tokyo_post : jsstring :=
  match @Part000.tweetText SampleHost.host tokyo_entry
          (Some (payload "clear-day" "20.4" "0.33" 25)) with
  | Ok text => text
  | Throw _ => []
  end.

Definition nowhere_entry : value := default VUndefined (head nowhere_list).

End Sample.

(** * Properties *)

(** Runs the state-and-exception monad one layer down. *)
Ltac run_m :=
  cbv [bind M_bind mret M_ret emit liftR throw get_scheduleList get_forecast
       set_scheduleList set_forecast WeatherToday.getEnvData];
  cbn [negb fst snd scheduleList forecast trace].

(** ** The emoji lookup *)




(** Each of the ten known codes has its glyph, in the switch and in the
    table. *)
Lemma getEmoji_known_codes (code g1 g2 : string) :
  (code, g1, g2) ∈ designated ->
  WeatherToday.getEmoji (utf16 code) = utf16 g1 /\
  Part000.getEmoji (utf16 code) = utf16 g2.
Proof.
  intros Hin. unfold designated in Hin.
  repeat (apply elem_of_cons in Hin as [Hin | Hin];
          [ injection Hin as -> -> ->; split; vm_compute; reflexivity | ]).
  apply elem_of_nil in Hin. destruct Hin.
Qed.

(** C8 at the icon code [constructor], which is none of the ten known codes.
    The switch of [src/weatherToday.ts] gives it the question-mark glyph
    U+2753, as every other code.  The table read of [part_000] finds the
    member of that name that [WeatherIcons] inherits from [Object.prototype],
    which [||] keeps, so that the block shows the text of a function in the
    place of the glyph; the same holds for each of the inherited names. *)
Theorem getEmoji_table_returns_inherited_member :
  (utf16 "constructor" ∉ known_codes) /\
  WeatherToday.getEmoji (utf16 "constructor") = question_mark /\
  Part000.WeatherIcons_get (utf16 "constructor")
  = Part000.Inherited (utf16 "constructor") /\
  Part000.getEmoji (utf16 "constructor")
  = utf16 "function Object() { [native code] }" /\
  Part000.getEmoji (utf16 "constructor") <> question_mark /\
  Forall (fun name =>
            (name ∉ known_codes) /\
            WeatherToday.getEmoji name = question_mark /\
            Part000.getEmoji name <> question_mark)
         Part000.Object_prototype_names.
Proof.
  assert (Hnames : Forall (fun name =>
                             (name ∉ known_codes) /\
                             WeatherToday.getEmoji name = question_mark /\
                             Part000.getEmoji name <> question_mark)
                          Part000.Object_prototype_names).
  { unfold Part000.Object_prototype_names.
    repeat (apply Forall_cons; split;
            [ split;
              [ apply (bool_decide_unpack (_ ∉ known_codes)); vm_compute; exact I
              | split; [ vm_compute; reflexivity | vm_compute; discriminate ] ]
            | ]).
    apply Forall_nil. constructor. }
  pose proof Hnames as Hall.
  apply Forall_cons in Hnames as [(Hout & Hswitch & Htable) _].
  split; [ exact Hout | ]. split; [ exact Hswitch | ].
  split; [ vm_compute; reflexivity | ].
  split; [ vm_compute; reflexivity | ].
  split; [ exact Htable | exact Hall ].
Qed.

(** ** The schedule matcher *)

Section Matcher.
Context `{Host}.

(** The callback of [find] accepts exactly the entries set for the time. *)
Lemma matches_entry_at (h m : number) (s : value) :
  WeatherToday.matches h m s = true <-> entry_at h m s.
Proof.
  unfold WeatherToday.matches, entry_at, strict_eq_num. split.
  - intros Hm.
    apply andb_prop in Hm as [Hm Hmin]. apply andb_prop in Hm as [_ Hh].
    destruct (prop s (utf16 "hours")) as [| | |h'| | |] eqn:Eh; try discriminate.
    destruct (prop s (utf16 "minutes")) as [| | |m'| | |] eqn:Em; try discriminate.
    exists h', m'. auto.
  - intros (h' & m' & Eh & Em & Hh & Hmin).
    destruct s; try discriminate Eh.
    rewrite Eh, Em, Hh, Hmin. reflexivity.
Qed.

Lemma Array_find_found (f : value -> bool) (l : list value) (r : value) :
  r <> VUndefined ->
  WeatherToday.Array_find f l = r ->
  exists i, l !! i = Some r /\ f r = true /\
            forall j s, (j < i)%nat -> l !! j = Some s -> f s <> true.
Proof.
  unfold WeatherToday.Array_find. intros Hr Hfind.
  destruct (list_find (fun s => f s = true) l) as [[i x]|] eqn:E; simpl in Hfind.
  - subst x. apply list_find_Some in E as (Hi & Hf & Hfirst).
    exists i. repeat split; eauto.
  - congruence.
Qed.

Lemma Array_find_none (f : value -> bool) (l : list value) :
  (forall s, s ∈ l -> f s <> true) ->
  WeatherToday.Array_find f l = VUndefined.
Proof.
  intros Hno. unfold WeatherToday.Array_find.
  destruct (list_find (fun s => f s = true) l) as [[i x]|] eqn:E; [ | reflexivity ].
  apply list_find_Some in E as (Hi & Hf & _).
  exfalso. apply (Hno x); [ eapply list_elem_of_lookup_2; eauto | assumption ].
Qed.

Lemma Array_find_some (f : value -> bool) (l : list value) (s : value) :
  s ∈ l -> f s = true ->
  (forall x, f x = true -> ToBoolean x = true) ->
  WeatherToday.Array_find f l <> VUndefined.
Proof.
  intros Hin Hf Htruthy. unfold WeatherToday.Array_find.
  destruct (list_find (fun s => f s = true) l) as [[i x]|] eqn:E; simpl.
  - apply list_find_Some in E as (_ & Hx & _).
    intros ->. apply Htruthy in Hx. discriminate Hx.
  - apply list_find_None in E. rewrite Forall_forall in E.
    exfalso. exact (E s Hin Hf).
Qed.

Lemma matches_truthy (h m : number) (s : value) :
  WeatherToday.matches h m s = true -> ToBoolean s = true.
Proof.
  unfold WeatherToday.matches. intros Hm.
  apply andb_prop in Hm as [Hm _]. apply andb_prop in Hm as [Hm _]. exact Hm.
Qed.

(** C2. On every schedule list and every time, [getMatchedSchedule] returns
    an entry exactly when some entry of the list carries the local hour and
    minute of the time; the entry returned is then the first such entry in
    list order; the empty list gives no match; and the call leaves the state
    of the process as it was. *)
Theorem getMatchedSchedule_first_match (nowDate : Date) (l : list value) :
  exists r,
    WeatherToday.getMatchedSchedule nowDate (VArr l) = Ok r /\
    (r <> VUndefined <->
     exists s, s ∈ l /\ entry_at (getHours nowDate) (getMinutes nowDate) s) /\
    (r <> VUndefined ->
     exists i, l !! i = Some r /\
               entry_at (getHours nowDate) (getMinutes nowDate) r /\
               forall j s, (j < i)%nat -> l !! j = Some s ->
                           ~ entry_at (getHours nowDate) (getMinutes nowDate) s) /\
    (l = [] -> r = VUndefined) /\
    (forall st, snd (liftR (WeatherToday.getMatchedSchedule nowDate (VArr l)) st) = st).
Proof.
  set (h := getHours nowDate). set (m := getMinutes nowDate).
  exists (WeatherToday.Array_find (WeatherToday.matches h m) l).
  split; [ reflexivity | ].
  split; [ | split; [ | split ] ].
  - split.
    + intros Hr.
      destruct (Array_find_found _ _ _ Hr eq_refl) as (i & Hi & Hf & _).
      eexists. split; [ eapply list_elem_of_lookup_2; eauto | ].
      by apply matches_entry_at.
    + intros (s & Hin & Hat). apply matches_entry_at in Hat.
      eapply Array_find_some; eauto using matches_truthy.
  - intros Hr.
    destruct (Array_find_found _ _ _ Hr eq_refl) as (i & Hi & Hf & Hfirst).
    exists i. split; [ exact Hi | ]. split; [ by apply matches_entry_at | ].
    intros j s Hj Hs Hat. apply matches_entry_at in Hat.
    exact (Hfirst j s Hj Hs Hat).
  - intros ->. reflexivity.
  - intros st. reflexivity.
Qed.

End Matcher.

(** At 07:30 the entry set for 07:30 is found; at 07:31 nothing is. *)
Lemma getMatchedSchedule_first_match_witness :
  exists r,
    @WeatherToday.getMatchedSchedule SampleHost.host Sample.at_0730
      (VArr [VNull; Sample.place "Osaka"; Sample.place "Tokyo"]) = Ok r /\
    r = Sample.place "Osaka".
Proof.
  destruct (@getMatchedSchedule_first_match SampleHost.host Sample.at_0730
              [VNull; Sample.place "Osaka"; Sample.place "Tokyo"])
    as (r & Hr & _).
  exists r. split; [ exact Hr | ].
  vm_compute in Hr. injection Hr as <-. vm_compute. reflexivity.
Defined.

Example getMatchedSchedule_0731 :
  @WeatherToday.getMatchedSchedule SampleHost.host Sample.at_0731
    (default VNull (SampleHost.parse_json Sample.tokyo_json)) = Ok VUndefined.
Proof. vm_compute. reflexivity. Qed.

(** ** The text of the post *)

Section Text.
Context `{Host}.

Lemma limit_short (text : jsstring) :
  (length text <= 140)%nat -> WeatherToday.limit text = text.
Proof.
  intros Hlen. unfold WeatherToday.limit.
  destruct (140 <? length text)%nat eqn:E; [ | reflexivity ].
  apply Nat.ltb_lt in E. lia.
Qed.

Lemma limit_long (text : jsstring) :
  (140 < length text)%nat ->
  WeatherToday.limit text = take 139 text ++ [ellipsis].
Proof.
  intros Hlen. unfold WeatherToday.limit.
  destruct (140 <? length text)%nat eqn:E; [ reflexivity | ].
  apply Nat.ltb_ge in E. lia.
Qed.

Lemma limit_length (text : jsstring) : (length (WeatherToday.limit text) <= 140)%nat.
Proof.
  destruct (Nat.le_gt_cases (length text) 140) as [Hle | Hgt].
  - rewrite limit_short; assumption.
  - rewrite limit_long by assumption.
    rewrite length_app, length_take. change (length [ellipsis]) with 1%nat. lia.
Qed.



Lemma shown_lookup (samples : list Weather) (i : nat) :
  (21 < length samples)%nat -> (i < 8)%nat ->
  shown samples !! i = samples !! (i * 3)%nat.
Proof.
  intros Hlen Hi. unfold shown, WeatherToday.count, WeatherToday.inter. simpl seq.
  assert (Hs : forall k, (k <= 21)%nat -> is_Some (samples !! k)).
  { intros k Hk. apply lookup_lt_is_Some. lia. }
  simpl omap.
  destruct (Hs 0%nat) as [d0 E0]; [ lia | ]. destruct (Hs 3%nat) as [d1 E1]; [ lia | ].
  destruct (Hs 6%nat) as [d2 E2]; [ lia | ]. destruct (Hs 9%nat) as [d3 E3]; [ lia | ].
  destruct (Hs 12%nat) as [d4 E4]; [ lia | ]. destruct (Hs 15%nat) as [d5 E5]; [ lia | ].
  destruct (Hs 18%nat) as [d6 E6]; [ lia | ]. destruct (Hs 21%nat) as [d7 E7]; [ lia | ].
  rewrite E0, E1, E2, E3, E4, E5, E6, E7.
  do 8 (destruct i as [|i]; [ simpl; congruence | ]). lia.
Qed.

(** The loop of [src/weatherToday.ts] appends one block per round; the
    percentage in it is not rounded. *)
Lemma forecastLoop_unrounded (samples : list Weather) (todo i : nat) (text : jsstring) :
  (forall k, (i <= k < i + todo)%nat -> (k * 3 < length samples)%nat) ->
  WeatherToday.forecastLoop samples todo i text =
  Ok (text ++ concat (map (entry_unrounded WeatherToday.getEmoji)
                          (omap (fun k => samples !! (k * WeatherToday.inter)%nat)
                                (seq i todo)))).
Proof.
  revert i text. induction todo as [|todo IH]; intros i text Hin.
  - simpl. by rewrite app_nil_r.
  - destruct (lookup_lt_is_Some_2 samples (i * WeatherToday.inter)%nat) as [d Hd].
    { unfold WeatherToday.inter. apply Hin. lia. }
    cbn [WeatherToday.forecastLoop]. rewrite Hd.
    rewrite IH by (intros k Hk; apply Hin; lia).
    cbn [seq omap list_omap]. rewrite Hd. cbn [map concat].
    unfold entry_unrounded, hour_text.
    repeat rewrite <- app_assoc. reflexivity.
Qed.

(** The loop of [part_000] appends one block per round, as the
    specification words it. *)
Lemma forecastLoop_rounded (samples : list Weather) (todo i : nat) (text : jsstring) :
  (forall k, (i <= k < i + todo)%nat -> (k * 3 < length samples)%nat) ->
  Part000.forecastLoop samples todo i text =
  Ok (text ++ concat (map (entry_rounded Part000.getEmoji)
                          (omap (fun k => samples !! (k * WeatherToday.inter)%nat)
                                (seq i todo)))).
Proof.
  revert i text. induction todo as [|todo IH]; intros i text Hin.
  - simpl. by rewrite app_nil_r.
  - destruct (lookup_lt_is_Some_2 samples (i * WeatherToday.inter)%nat) as [d Hd].
    { unfold WeatherToday.inter. apply Hin. lia. }
    cbn [Part000.forecastLoop]. rewrite Hd.
    rewrite IH by (intros k Hk; apply Hin; lia).
    cbn [seq omap list_omap]. rewrite Hd. cbn [map concat].
    unfold entry_rounded, hour_text.
    repeat rewrite <- app_assoc. reflexivity.
Qed.

End Text.

Section Format.
Context `{Host}.

Lemma hourlyData_present (w : WeatherForcast) (h : HourlyBlock) (samples : list Weather) :
  hourly w = Some h -> data h = Some samples ->
  Part000.hourlyData (Some w) = Some samples.
Proof.
  intros Hh Hd. unfold Part000.hourlyData. cbn [mbind option_bind].
  rewrite Hh. cbn [mbind option_bind]. exact Hd.
Qed.

Lemma tweetText_unrounded (schedule : value) (w : WeatherForcast) (h : HourlyBlock)
      (samples : list Weather) :
  hourly w = Some h -> data h = Some samples ->
  (24 < length samples)%nat -> is_Some (currently w) ->
  WeatherToday.tweetText schedule (Some w)
  = Ok (WeatherToday.limit (full_text_unrounded schedule samples)).
Proof.
  intros Hh Hd Hlen [c Hc]. unfold WeatherToday.tweetText.
  rewrite Hh, Hd, Hc.
  replace (WeatherToday.inter * WeatherToday.count <? length samples)%nat with true
    by (symmetry; apply Nat.ltb_lt; exact Hlen).
  rewrite forecastLoop_unrounded.
  - unfold full_text_unrounded, header, shown.
    repeat rewrite <- app_assoc. reflexivity.
  - intros k Hk. unfold WeatherToday.count in Hk. lia.
Qed.


Lemma tweetText_failure (schedule : value) (w : WeatherForcast) (h : HourlyBlock)
      (samples : list Weather) :
  hourly w = Some h -> data h = Some samples ->
  (length samples <= 24)%nat ->
  WeatherToday.tweetText schedule (Some w) = Ok failure_text /\
  Part000.tweetText schedule (Some w) = Ok failure_text.
Proof.
  intros Hh Hd Hlen.
  assert (E : (WeatherToday.inter * WeatherToday.count <? length samples)%nat = false).
  { apply Nat.ltb_ge. exact Hlen. }
  split.
  - unfold WeatherToday.tweetText. rewrite Hh, Hd, E. reflexivity.
  - unfold Part000.tweetText.
    rewrite (hourlyData_present w h samples Hh Hd).
    change (default 0%nat (length <$> Some samples)) with (length samples).
    rewrite E. reflexivity.
Qed.


(** Which sample each block is made of. *)
Lemma shown_blocks (samples : list Weather) (i : nat) :
  (24 < length samples)%nat -> (i < 8)%nat ->
  exists d, samples !! (i * 3)%nat = Some d /\
            map (entry_unrounded WeatherToday.getEmoji) (shown samples) !! i
            = Some (entry_unrounded WeatherToday.getEmoji d) /\
            map (entry_rounded Part000.getEmoji) (shown samples) !! i
            = Some (entry_rounded Part000.getEmoji d).
Proof.
  intros Hlen Hi.
  destruct (lookup_lt_is_Some_2 samples (i * 3)%nat) as [d Hd]; [ lia | ].
  exists d. split; [ exact Hd | ].
  rewrite !list_lookup_fmap, shown_lookup by lia. rewrite Hd. split; reflexivity.
Qed.

(** Every post text has passed the length limit. *)
Lemma tweetText_limited (schedule : value) (weather : option WeatherForcast)
      (t : jsstring) :
  WeatherToday.tweetText schedule weather = Ok t \/
  Part000.tweetText schedule weather = Ok t ->
  exists text, t = WeatherToday.limit text.
Proof.
  intros [Ht | Ht].
  - unfold WeatherToday.tweetText in Ht.
    destruct weather as [w|]; [ | discriminate ].
    destruct (hourly w) as [h|]; [ | discriminate ].
    destruct (data h) as [samples|]; [ | discriminate ].
    destruct (_ <? _)%nat.
    + destruct (currently w); [ | discriminate ].
      destruct (WeatherToday.forecastLoop _ _ _ _) as [text|]; [ | discriminate ].
      injection Ht as <-. eauto.
    + injection Ht as <-. eauto.
  - unfold Part000.tweetText in Ht.
    destruct (_ <? _)%nat.
    + destruct (Part000.forecastLoop _ _ _ _) as [text|]; [ | discriminate ].
      injection Ht as <-. eauto.
    + injection Ht as <-. eauto.
Qed.

(** C4, amended.  The post is at most 140 UTF-16 code units long; a text of
    more than 140 code units is replaced by its first 139 code units followed
    by the ellipsis, which is then the 140th code unit; a text of at most 140
    code units is posted as it is. *)
Theorem limit_140_code_units (text : jsstring) :
  (length (WeatherToday.limit text) <= 140)%nat /\
  ((140 < length text)%nat ->
   WeatherToday.limit text = take 139 text ++ [ellipsis] /\
   length (WeatherToday.limit text) = 140%nat /\
   WeatherToday.limit text !! 139%nat = Some ellipsis) /\
  ((length text <= 140)%nat -> WeatherToday.limit text = text) /\
  (forall schedule weather t,
     WeatherToday.tweetText schedule weather = Ok t \/
     Part000.tweetText schedule weather = Ok t ->
     (length t <= 140)%nat).
Proof.
  split; [ apply limit_length | ].
  split; [ | split; [ apply limit_short | ] ].
  - intros Hlen. rewrite limit_long by exact Hlen.
    assert (Htake : length (take 139 text) = 139%nat)
      by (rewrite length_take; lia).
    split; [ reflexivity | ]. split.
    + rewrite length_app, Htake. reflexivity.
    + apply list_lookup_middle. symmetry. exact Htake.
  - intros schedule weather t Ht.
    destruct (tweetText_limited _ _ _ Ht) as [raw ->]. apply limit_length.
Qed.

End Format.

(** *** The post text on concrete payloads *)

Section FormatOnSampleHost.
#[local] Existing Instance SampleHost.host.



(** A text of 150 code units is cut to 140. *)
Lemma limit_140_code_units_witness :
  (140 < length (full_text_rounded (Sample.place "Higashimurayama-shi")
                   (map (Sample.sample "clear-night" "20.4" "0.33") (seq 0 25))))%nat /\
  WeatherToday.limit
    (full_text_rounded (Sample.place "Higashimurayama-shi")
       (map (Sample.sample "clear-night" "20.4" "0.33") (seq 0 25))) !! 139%nat
  = Some ellipsis.
Proof.
  assert (Hlen : (140 < length (full_text_rounded (Sample.place "Higashimurayama-shi")
                                  (map (Sample.sample "clear-night" "20.4" "0.33")
                                       (seq 0 25))))%nat).
  { vm_compute. lia. }
  split; [ exact Hlen | ].
  exact (proj2 (proj2 (proj1 (proj2 (limit_140_code_units _)) Hlen))).
Defined.

(** C4 as worded, with the length counted in code points, fails: the text
    below has 142 code points, each moon being one code point and two code
    units; what is posted is not its first 139 code points followed by the
    ellipsis, and holds only 133 code points, so that it has no 140th one. *)
Lemma limit_not_in_code_points :
  let text := full_text_rounded (Sample.place "Higashimurayama-shi")
                (map (Sample.sample "clear-night" "20.4" "0.33") (seq 0 25)) in
  Part000.tweetText (Sample.place "Higashimurayama-shi")
    (Some (Sample.payload "clear-night" "20.4" "0.33" 25))
  = Ok (WeatherToday.limit text) /\
  length (codePoints text) = 142%nat /\
  codePoints (WeatherToday.limit text) <> take 139 (codePoints text) ++ [ellipsis] /\
  length (codePoints (WeatherToday.limit text)) = 133%nat /\
  codePoints (WeatherToday.limit text) !! 139%nat <> Some ellipsis.
Proof.
  split; [ vm_compute; reflexivity | ].
  split; [ vm_compute; reflexivity | ].
  split; [ | split; [ vm_compute; reflexivity | vm_compute; discriminate ] ].
  intros Heq. apply (f_equal length) in Heq. vm_compute in Heq. discriminate Heq.
Qed.

(** C5 at a sample with precipitation probability 0.29.  The block
    [src/weatherToday.ts] builds prints the product [0.29 * 100] as it is,
    28.999999999999996; the block [part_000] builds prints it rounded, 29. *)
Theorem weatherToday_percentage_not_rounded :
  entry_unrounded WeatherToday.getEmoji (Sample.sample "clear-day" "20.4" "0.29" 0)
  = utf16 "0時" ++ nl ++ utf16 "☀️ 20℃ 28.999999999999996％" ++ nl ++ nl /\
  entry_rounded Part000.getEmoji (Sample.sample "clear-day" "20.4" "0.29" 0)
  = utf16 "0時" ++ nl ++ utf16 "☀ 20℃ 29％" ++ nl ++ nl /\
  (exists rest,
     WeatherToday.tweetText (Sample.place "Tokyo")
       (Some (Sample.payload "clear-day" "20.4" "0.29" 25))
     = Ok (utf16 "Tokyoの天気予報" ++ nl ++ nl
             ++ utf16 "0時" ++ nl ++ utf16 "☀️ 20℃ 28.999999999999996％" ++ nl ++ nl
             ++ rest)) /\
  (exists rest,
     Part000.tweetText (Sample.place "Tokyo")
       (Some (Sample.payload "clear-day" "20.4" "0.29" 25))
     = Ok (utf16 "Tokyoの天気予報" ++ nl ++ nl
             ++ utf16 "0時" ++ nl ++ utf16 "☀ 20℃ 29％" ++ nl ++ nl
             ++ rest)).
Proof.
  split; [ vm_compute; reflexivity | ].
  split; [ vm_compute; reflexivity | ].
  split; eexists; vm_compute; reflexivity.
Qed.

End FormatOnSampleHost.

(** ** One invocation: the fetch callback and [run] *)

Section Invocation.
Context `{Host}.

Lemma add_events_nil (st : State) : add_events st [] = st.
Proof. destruct st. unfold add_events. simpl. by rewrite app_nil_r. Qed.

Lemma add_events_app (st : State) (e1 e2 : list Event) :
  add_events (add_events st e1) e2 = add_events st (e1 ++ e2).
Proof. unfold add_events. simpl. by rewrite app_assoc. Qed.

Lemma onForecast_error (self : WeatherToday.WeatherToday) (schedule : value)
      (cb : bool -> M unit) (isSuccess : bool) (err : FetchError)
      (weather : option WeatherForcast) (st : State) :
  WeatherToday.onForecast self schedule cb isSuccess (Some err) weather st
  = (Ok tt, add_events st [fetch_error_log]) /\
  Part000.onForecast self schedule cb isSuccess (Some err) weather st
  = (Ok tt, add_events st [fetch_error_log]).
Proof. split; reflexivity. Qed.

(** What a call of [run] leaves behind: the statics as they were and the
    trace longer by one of the four shapes. *)
Lemma run_trace (self : WeatherToday.WeatherToday) (resp : FetchResponse)
      (isSuccess : bool) (st : State) :
  (exists evs, snd (WeatherToday.run self resp isSuccess st) = add_events st evs /\
               run_events resp isSuccess evs) /\
  (exists evs, snd (Part000.run self resp isSuccess st) = add_events st evs /\
               run_events resp isSuccess evs).
Proof.
  assert (Hnil : forall r : Result unit, exists evs,
             snd (r, st) = add_events st evs /\ run_events resp isSuccess evs).
  { intros r. exists []. split; [ by rewrite add_events_nil | by left ]. }
  split.
  - unfold WeatherToday.run. run_m.
    destruct (WeatherToday.getMatchedSchedule _ _) as [schedule|e]; [ | apply Hnil ].
    unfold WeatherToday.tweetWeather. run_m.
    destruct (forecast st) as [| |client]; try apply Hnil.
    destruct (get schedule _) as [location|e]; [ | apply Hnil ].
    destruct (get location _) as [point|e]; [ | apply Hnil ].
    destruct resp as [|[err|] weather].
    + eexists. split; [ reflexivity | ]. right. exists client, point. by left.
    + unfold WeatherToday.onForecast. run_m.
      eexists. split; [ rewrite add_events_app; reflexivity | ].
      right. exists client, point. right. left. eauto.
    + unfold WeatherToday.onForecast. run_m.
      destruct (WeatherToday.tweetText schedule weather) as [text|e].
      * eexists. split; [ rewrite !add_events_app; reflexivity | ].
        right. exists client, point. right. right. eauto.
      * eexists. split; [ reflexivity | ]. right. exists client, point. by left.
  - unfold Part000.run. run_m.
    destruct (WeatherToday.getMatchedSchedule _ _) as [schedule|e]; [ | apply Hnil ].
    unfold Part000.tweetWeather. run_m.
    destruct (forecast st) as [| |client]; try apply Hnil.
    destruct (get schedule _) as [location|e]; [ | apply Hnil ].
    destruct (get location _) as [point|e]; [ | apply Hnil ].
    destruct resp as [|[err|] weather].
    + eexists. split; [ reflexivity | ]. right. exists client, point. by left.
    + unfold Part000.onForecast. run_m.
      eexists. split; [ rewrite add_events_app; reflexivity | ].
      right. exists client, point. right. left. eauto.
    + unfold Part000.onForecast. run_m.
      destruct (Part000.tweetText schedule weather) as [text|e].
      * eexists. split; [ rewrite !add_events_app; reflexivity | ].
        right. exists client, point. right. right. eauto.
      * eexists. split; [ reflexivity | ]. right. exists client, point. by left.
Qed.

Lemma run_events_on_error (err : FetchError) (weather : option WeatherForcast)
      (isSuccess : bool) (evs : list Event) :
  run_events (Response (Some err) weather) isSuccess evs ->
  evs = [] \/
  exists client point,
    evs = [ForecastGet client point] \/
    evs = [ForecastGet client point; fetch_error_log].
Proof.
  intros [-> | (client & point & [-> | [(e & w & _ & ->) | (w & a & t & Hresp & _)]])].
  - by left.
  - right. exists client, point. by left.
  - right. exists client, point. by right.
  - discriminate Hresp.
Qed.

(** C3. When the fetch callback receives an error, all it does is write the
    error log: it does not build or post a text and it does not call the
    completion callback it was given, whatever that callback is.  A call of
    [run] whose fetch is answered with an error therefore adds no post and no
    completion to the trace, and leaves the statics as they were. *)
Theorem fetch_error_stops_silently (self : WeatherToday.WeatherToday)
        (schedule : value) (cb : bool -> M unit) (isSuccess : bool)
        (err : FetchError) (weather : option WeatherForcast) (st : State) :
  WeatherToday.onForecast self schedule cb isSuccess (Some err) weather st
  = (Ok tt, add_events st [fetch_error_log]) /\
  Part000.onForecast self schedule cb isSuccess (Some err) weather st
  = (Ok tt, add_events st [fetch_error_log]) /\
  (exists evs,
     snd (WeatherToday.run self (Response (Some err) weather) isSuccess st)
     = add_events st evs /\
     List.filter is_post evs = [] /\ List.filter is_finish evs = [] /\
     (evs = [] \/ exists client point,
         evs = [ForecastGet client point] \/
         evs = [ForecastGet client point; fetch_error_log])) /\
  (exists evs,
     snd (Part000.run self (Response (Some err) weather) isSuccess st)
     = add_events st evs /\
     List.filter is_post evs = [] /\ List.filter is_finish evs = [] /\
     (evs = [] \/ exists client point,
         evs = [ForecastGet client point] \/
         evs = [ForecastGet client point; fetch_error_log])).
Proof.
  destruct (onForecast_error self schedule cb isSuccess err weather st) as [E1 E2].
  destruct (run_trace self (Response (Some err) weather) isSuccess st)
    as [(evs1 & Hs1 & Hev1) (evs2 & Hs2 & Hev2)].
  apply run_events_on_error in Hev1, Hev2.
  assert (Hquiet : forall evs,
             evs = [] \/ (exists client point,
                            evs = [ForecastGet client point] \/
                            evs = [ForecastGet client point; fetch_error_log]) ->
             List.filter is_post evs = [] /\ List.filter is_finish evs = []).
  { intros evs [-> | (c & p & [-> | ->])]; split; reflexivity. }
  split; [ exact E1 | ]. split; [ exact E2 | ]. split.
  - exists evs1. destruct (Hquiet evs1 Hev1). auto.
  - exists evs2. destruct (Hquiet evs2 Hev2). auto.
Qed.

End Invocation.

(** ** Loading the configuration: [getSchedules] and [isValid] *)

Section Loading.
Context `{Host}.

Lemma getSchedules_run (env : EnvStore) (accountData : AccountData) (st : State) :
  WeatherToday.getSchedules env accountData st =
  match JSON_parse (ToString (stored_schedules env accountData)) with
  | Some parsed => (Ok parsed, add_events st [read_schedules accountData])
  | None =>
    (Ok (VArr []),
     add_events st [read_schedules accountData; invalid_format_warning])
  end.
Proof.
  unfold WeatherToday.getSchedules. run_m.
  fold (schedules_key_of accountData). fold (stored_schedules env accountData).
  destruct (JSON_parse _); run_m; [ reflexivity | ].
  rewrite add_events_app. reflexivity.
Qed.

Lemma getForecastKey_run (env : EnvStore) (accountData : AccountData) (st : State) :
  WeatherToday.getForecastKey env accountData st =
  (Ok (stored_key env accountData),
   add_events st
     (read_key accountData ::
      if ToBoolean (stored_key env accountData) then []
      else [LogW (utf16 "Could not load forecast key from environments.")])).
Proof.
  unfold WeatherToday.getForecastKey. run_m.
  fold (forecast_key_of accountData). fold (stored_key env accountData).
  destruct (ToBoolean _); run_m; [ reflexivity | ].
  rewrite add_events_app. reflexivity.
Qed.

(** [isValid] in one piece: the two loads, then the match. *)
Lemma isValid_run (env : EnvStore) (accountData : AccountData) (nowDate : Date)
      (st : State) :
  WeatherToday.isValid env accountData nowDate st =
  (match WeatherToday.getMatchedSchedule nowDate
           (schedule_load env accountData (scheduleList st)).1 with
   | Ok found => Ok (ToBoolean found)
   | Throw e => Throw e
   end,
   {| scheduleList := (schedule_load env accountData (scheduleList st)).1;
      forecast := (client_load env accountData (forecast st)).1;
      trace := trace st
                 ++ (schedule_load env accountData (scheduleList st)).2
                 ++ (client_load env accountData (forecast st)).2 |}).
Proof.
  destruct st as [sl fc tr].
  unfold WeatherToday.isValid, schedule_load, client_load.
  cbv [bind M_bind get_scheduleList get_forecast]. cbn [scheduleList forecast trace].
  destruct (ToBoolean sl) eqn:Esl; cbn [negb];
    [ | rewrite getSchedules_run; destruct (JSON_parse _) as [parsed|] ];
    run_m; unfold add_events; cbn [scheduleList forecast trace].
  all: destruct (forecast_truthy fc) eqn:Efc; cbn [negb];
    [ | rewrite getForecastKey_run; unfold WeatherToday.getForecast;
        destruct (ToBoolean (stored_key env accountData)) ];
    run_m; unfold add_events; cbn [scheduleList forecast trace].
  all: match goal with
       | |- context [WeatherToday.getMatchedSchedule ?d ?v] =>
         destruct (WeatherToday.getMatchedSchedule d v) as [found|e]
       end.
  all: cbn [fst snd]; repeat rewrite <- app_assoc; cbn [app]; rewrite ?app_nil_r.
  all: try reflexivity.
  all: try (by destruct (ToBoolean found)).
Qed.

(** C6. [getSchedules] never throws.  On a stored text that [JSON.parse]
    rejects it reads the store, writes one warning and returns the empty
    array; its caller [isValid] then sees no exception either and answers
    [false]. *)
Theorem getSchedules_fails_open (env : EnvStore) (accountData : AccountData)
        (nowDate : Date) (st : State) :
  (exists v st', WeatherToday.getSchedules env accountData st = (Ok v, st')) /\
  (JSON_parse (ToString (stored_schedules env accountData)) = None ->
   WeatherToday.getSchedules env accountData st
   = (Ok (VArr []),
      add_events st [read_schedules accountData; invalid_format_warning]) /\
   (ToBoolean (scheduleList st) = false ->
    exists st', WeatherToday.isValid env accountData nowDate st = (Ok false, st') /\
                scheduleList st' = VArr [])).
Proof.
  rewrite getSchedules_run. split.
  - destruct (JSON_parse _); eauto.
  - intros Hbad. rewrite Hbad. split; [ reflexivity | ].
    intros Hunset. rewrite isValid_run. unfold schedule_load.
    rewrite Hunset, Hbad. cbn [fst snd]. eexists. split; reflexivity.
Qed.

(** *** [run] when nothing matches, and when the list is no list *)

Lemma getMatchedSchedule_no_match (nowDate : Date) (l : list value) :
  (forall s, s ∈ l -> ~ entry_at (getHours nowDate) (getMinutes nowDate) s) ->
  WeatherToday.getMatchedSchedule nowDate (VArr l) = Ok VUndefined.
Proof.
  intros Hno. unfold WeatherToday.getMatchedSchedule. f_equal.
  apply Array_find_none. intros s Hs Hm. apply matches_entry_at in Hm.
  exact (Hno s Hs Hm).
Qed.

(** C9. When no entry of the cached list is set for the time of the
    invocation, [getMatchedSchedule] gives [undefined] and [run] ends in a
    [TypeError] before any fetch, post or completion: with a forecast client
    in place the error is the read of [location] on [undefined]. *)
Theorem run_without_matching_entry (self : WeatherToday.WeatherToday)
        (l : list value) (resp : FetchResponse) (isSuccess : bool) (st : State) :
  scheduleList st = VArr l ->
  (forall s, s ∈ l ->
     ~ entry_at (getHours (WeatherToday.nowDate self))
                (getMinutes (WeatherToday.nowDate self)) s) ->
  WeatherToday.getMatchedSchedule (WeatherToday.nowDate self) (scheduleList st)
  = Ok VUndefined /\
  (exists e, WeatherToday.run self resp isSuccess st = (Throw (TypeError e), st)) /\
  (exists e, Part000.run self resp isSuccess st = (Throw (TypeError e), st)) /\
  (forall client, forecast st = FClient client ->
     WeatherToday.run self resp isSuccess st = (Throw location_of_undefined, st) /\
     Part000.run self resp isSuccess st = (Throw location_of_undefined, st)).
Proof.
  intros Hl Hno.
  assert (Hfind : WeatherToday.getMatchedSchedule (WeatherToday.nowDate self)
                    (scheduleList st) = Ok VUndefined).
  { rewrite Hl. by apply getMatchedSchedule_no_match. }
  split; [ exact Hfind | ].
  unfold WeatherToday.run, Part000.run,
    WeatherToday.tweetWeather, Part000.tweetWeather.
  run_m. rewrite Hfind.
  destruct (forecast st) as [| |client]; cbn [get].
  - split; [ eexists; reflexivity | ]. split; [ eexists; reflexivity | ].
    intros c Hc. discriminate Hc.
  - split; [ eexists; reflexivity | ]. split; [ eexists; reflexivity | ].
    intros c Hc. discriminate Hc.
  - split; [ eexists; reflexivity | ]. split; [ eexists; reflexivity | ].
    intros c _. split; vm_compute; reflexivity.
Qed.

Lemma getMatchedSchedule_not_array (nowDate : Date) (v : value) :
  is_array v = false ->
  exists e, WeatherToday.getMatchedSchedule nowDate v = Throw (TypeError e).
Proof. intros Hv. destruct v; try discriminate Hv; simpl; eauto. Qed.

(** C10. [getSchedules] hands on whatever [JSON.parse] produced.  A stored
    text that parses to something other than an array (a number, an object,
    a string, [null]) becomes the cached schedule list, and the traversal in
    [getMatchedSchedule] then throws a [TypeError], in the validity check
    that loaded it and in every later [run], instead of finding no match. *)
Theorem getSchedules_unvalidated (env : EnvStore) (accountData : AccountData)
        (nowDate : Date) (st : State) (v : value) :
  ToBoolean (scheduleList st) = false ->
  JSON_parse (ToString (stored_schedules env accountData)) = Some v ->
  is_array v = false ->
  WeatherToday.getSchedules env accountData st
  = (Ok v, add_events st [read_schedules accountData]) /\
  (exists e st',
     WeatherToday.isValid env accountData nowDate st = (Throw (TypeError e), st') /\
     scheduleList st' = v) /\
  (forall d, exists e, WeatherToday.getMatchedSchedule d v = Throw (TypeError e)) /\
  (forall self resp isSuccess st',
     scheduleList st' = v ->
     (exists e, WeatherToday.run self resp isSuccess st' = (Throw (TypeError e), st')) /\
     (exists e, Part000.run self resp isSuccess st' = (Throw (TypeError e), st'))).
Proof.
  intros Hunset Hparse Hv.
  split; [ rewrite getSchedules_run, Hparse; reflexivity | ].
  split; [ | split ].
  - rewrite isValid_run. unfold schedule_load. rewrite Hunset, Hparse. cbn [fst snd].
    destruct (getMatchedSchedule_not_array nowDate v Hv) as [e ->].
    eexists _, _. split; reflexivity.
  - intros d. by apply getMatchedSchedule_not_array.
  - intros self resp isSuccess st' Hst'.
    destruct (getMatchedSchedule_not_array (WeatherToday.nowDate self) v Hv)
      as [e He].
    unfold WeatherToday.run, Part000.run. run_m. rewrite Hst', He. eauto.
Qed.

End Loading.

(** ** The process-wide cache over a process lifetime *)

Section Lifetime.
Context `{Host}.

Lemma schedule_loads_app (tr evs : list Event) :
  schedule_loads (tr ++ evs) = (schedule_loads tr + schedule_loads evs)%nat.
Proof. unfold schedule_loads. by rewrite List.filter_app, length_app. Qed.

Lemma key_loads_app (tr evs : list Event) :
  key_loads (tr ++ evs) = (key_loads tr + key_loads evs)%nat.
Proof. unfold key_loads. by rewrite List.filter_app, length_app. Qed.

Lemma client_builds_app (tr evs : list Event) :
  client_builds (tr ++ evs) = (client_builds tr + client_builds evs)%nat.
Proof. unfold client_builds. by rewrite List.filter_app, length_app. Qed.

Lemma read_key_not_schedules (accountData : AccountData) :
  is_schedules_read (read_key accountData) = false.
Proof.
  unfold is_schedules_read, read_key, forecast_key_of.
  apply bool_decide_eq_false. intros Heq.
  apply (f_equal head) in Heq. vm_compute in Heq. discriminate Heq.
Qed.

Lemma read_schedules_not_key (accountData : AccountData) :
  is_key_read (read_schedules accountData) = false.
Proof.
  unfold is_key_read, read_schedules, schedules_key_of.
  apply bool_decide_eq_false. intros Heq.
  apply (f_equal head) in Heq. vm_compute in Heq. discriminate Heq.
Qed.

Lemma read_schedules_counts (accountData : AccountData) :
  is_schedules_read (read_schedules accountData) = true.
Proof.
  unfold is_schedules_read, read_schedules, schedules_key_of.
  apply bool_decide_eq_true. reflexivity.
Qed.

Lemma read_key_counts (accountData : AccountData) :
  is_key_read (read_key accountData) = true.
Proof.
  unfold is_key_read, read_key, forecast_key_of.
  apply bool_decide_eq_true. reflexivity.
Qed.

(** The events of the first block of [isValid]: one read of the schedules
    when the field was falsy, none otherwise; never a read of the key. *)
Lemma schedule_load_counts (env : EnvStore) (accountData : AccountData)
      (cached : value) :
  schedule_loads (schedule_load env accountData cached).2
  = (if ToBoolean cached then 0 else 1)%nat /\
  key_loads (schedule_load env accountData cached).2 = 0%nat /\
  client_builds (schedule_load env accountData cached).2 = 0%nat.
Proof.
  unfold schedule_load. destruct (ToBoolean cached); [ by repeat split | ].
  destruct (JSON_parse _); cbn [snd];
    unfold schedule_loads, key_loads, client_builds; cbn [List.filter is_client_built];
    rewrite read_schedules_counts, read_schedules_not_key; by repeat split.
Qed.

Lemma client_load_counts (env : EnvStore) (accountData : AccountData)
      (cached : ForecastRef) :
  schedule_loads (client_load env accountData cached).2 = 0%nat /\
  key_loads (client_load env accountData cached).2
  = (if forecast_truthy cached then 0 else 1)%nat /\
  client_builds (client_load env accountData cached).2
  = (if forecast_truthy cached then 0
     else if ToBoolean (stored_key env accountData) then 1 else 0)%nat.
Proof.
  unfold client_load. destruct (forecast_truthy cached); [ by repeat split | ].
  destruct (ToBoolean _); cbn [snd];
    unfold schedule_loads, key_loads, client_builds; cbn [List.filter is_client_built];
    rewrite read_key_counts, read_key_not_schedules; by repeat split.
Qed.

Lemma run_events_counts (resp : FetchResponse) (isSuccess : bool) (evs : list Event) :
  run_events resp isSuccess evs ->
  schedule_loads evs = 0%nat /\ key_loads evs = 0%nat /\ client_builds evs = 0%nat.
Proof.
  intros [-> | (c & p & [-> | [(e & w & _ & ->) | (w & a & t & _ & ->)]])];
    by repeat split.
Qed.

(** One validity check. *)
Lemma isValid_cache (env : EnvStore) (accountData : AccountData) (nowDate : Date)
      (st : State) :
  let st' := snd (WeatherToday.isValid env accountData nowDate st) in
  (if ToBoolean (scheduleList st)
   then scheduleList st' = scheduleList st /\
        schedule_loads (trace st') = schedule_loads (trace st)
   else scheduleList st'
        = default (VArr []) (JSON_parse (ToString (stored_schedules env accountData))) /\
        schedule_loads (trace st') = S (schedule_loads (trace st))) /\
  (if forecast_truthy (forecast st)
   then forecast st' = forecast st /\
        key_loads (trace st') = key_loads (trace st) /\
        client_builds (trace st') = client_builds (trace st)
   else forecast st'
        = (if ToBoolean (stored_key env accountData)
           then FClient (client_options (stored_key env accountData))
           else FNull) /\
        key_loads (trace st') = S (key_loads (trace st))).
Proof.
  intros st'. subst st'. rewrite isValid_run. cbn [snd scheduleList forecast trace].
  rewrite !schedule_loads_app, !key_loads_app, !client_builds_app.
  destruct (schedule_load_counts env accountData (scheduleList st)) as (S1 & S2 & S3).
  destruct (client_load_counts env accountData (forecast st)) as (C1 & C2 & C3).
  rewrite S1, S2, S3, C1, C2, C3.
  unfold schedule_load, client_load. split.
  - destruct (ToBoolean (scheduleList st)).
    + split; [ reflexivity | lia ].
    + split; [ destruct (JSON_parse _); reflexivity | lia ].
  - destruct (forecast_truthy (forecast st)).
    + split; [ reflexivity | split; lia ].
    + split; [ destruct (ToBoolean (stored_key env accountData)); reflexivity | lia ].
Qed.

Lemma step_keeps_schedules (run : Runner) (c : Call) (st : State) :
  run = WeatherToday.run \/ run = Part000.run ->
  ToBoolean (scheduleList st) = true ->
  scheduleList (step run st c) = scheduleList st /\
  schedule_loads (trace (step run st c)) = schedule_loads (trace st).
Proof.
  intros Hrun Htruthy. destruct c as [env a d | self resp ok]; cbn [step].
  - pose proof (isValid_cache env a d st) as [Hs _]. rewrite Htruthy in Hs. exact Hs.
  - destruct (run_trace self resp ok st) as [(e1 & E1 & R1) (e2 & E2 & R2)].
    destruct Hrun as [-> | ->];
      [ rewrite E1; apply run_events_counts in R1 as (Z1 & _)
      | rewrite E2; apply run_events_counts in R2 as (Z1 & _) ];
      cbn [add_events scheduleList trace]; rewrite schedule_loads_app, Z1;
      (split; [ reflexivity | lia ]).
Qed.

Lemma step_keeps_client (run : Runner) (c : Call) (st : State) (client : Forecast) :
  run = WeatherToday.run \/ run = Part000.run ->
  forecast st = FClient client ->
  forecast (step run st c) = FClient client /\
  key_loads (trace (step run st c)) = key_loads (trace st) /\
  client_builds (trace (step run st c)) = client_builds (trace st).
Proof.
  intros Hrun Hclient. destruct c as [env a d | self resp ok]; cbn [step].
  - pose proof (isValid_cache env a d st) as [_ Hc]. rewrite Hclient in Hc.
    cbn [forecast_truthy] in Hc. exact Hc.
  - destruct (run_trace self resp ok st) as [(e1 & E1 & R1) (e2 & E2 & R2)].
    destruct Hrun as [-> | ->];
      [ rewrite E1; apply run_events_counts in R1 as (_ & Z2 & Z3)
      | rewrite E2; apply run_events_counts in R2 as (_ & Z2 & Z3) ];
      cbn [add_events forecast trace];
      rewrite key_loads_app, client_builds_app, Z2, Z3;
      (split; [ exact Hclient | split; lia ]).
Qed.

(** C7, amended.  Each validity check loads the schedule list exactly when
    the cached field is still falsy at that check, and reads the forecast key
    exactly when no client is cached yet, whichever account the check is for.
    Once the schedule list is truthy (any array, the empty one included) no
    later [isValid] or [run] call changes it or reads the stored schedules
    again; once a client is cached no later call changes it, reads the key or
    builds a client again. *)
Theorem cache_loaded_while_unset (run : Runner) :
  run = WeatherToday.run \/ run = Part000.run ->
  (forall env accountData nowDate st,
     let st' := snd (WeatherToday.isValid env accountData nowDate st) in
     (if ToBoolean (scheduleList st)
      then scheduleList st' = scheduleList st /\
           schedule_loads (trace st') = schedule_loads (trace st)
      else scheduleList st'
           = default (VArr [])
                     (JSON_parse (ToString (stored_schedules env accountData))) /\
           schedule_loads (trace st') = S (schedule_loads (trace st))) /\
     (if forecast_truthy (forecast st)
      then forecast st' = forecast st /\
           key_loads (trace st') = key_loads (trace st) /\
           client_builds (trace st') = client_builds (trace st)
      else forecast st'
           = (if ToBoolean (stored_key env accountData)
              then FClient (client_options (stored_key env accountData))
              else FNull) /\
           key_loads (trace st') = S (key_loads (trace st)))) /\
  (forall calls st,
     ToBoolean (scheduleList st) = true ->
     scheduleList (process run calls st) = scheduleList st /\
     schedule_loads (trace (process run calls st)) = schedule_loads (trace st)) /\
  (forall calls st client,
     forecast st = FClient client ->
     forecast (process run calls st) = FClient client /\
     key_loads (trace (process run calls st)) = key_loads (trace st) /\
     client_builds (trace (process run calls st)) = client_builds (trace st)).
Proof.
  intros Hrun. split; [ intros; apply isValid_cache | ]. split.
  - intros calls. induction calls as [|c calls IH]; intros st Htruthy.
    + split; reflexivity.
    + cbn [process foldl]. fold (process run calls (step run st c)).
      destruct (step_keeps_schedules run c st Hrun Htruthy) as [Hs Hn].
      destruct (IH (step run st c)) as [Hs' Hn']; [ by rewrite Hs | ].
      split; congruence.
  - intros calls. induction calls as [|c calls IH]; intros st client Hclient.
    + repeat split; try reflexivity. exact Hclient.
    + cbn [process foldl]. fold (process run calls (step run st c)).
      destruct (step_keeps_client run c st client Hrun Hclient) as (Hc & Hk & Hb).
      destruct (IH (step run st c) client Hc) as (Hc' & Hk' & Hb').
      repeat split; congruence.
Qed.

End Lifetime.

(** ** Concrete runs on the sample host *)

Section RunsOnSampleHost.
#[local] Existing Instance SampleHost.host.

(** A stored text with an unquoted member name is no JSON. *)
Lemma getSchedules_fails_open_witness :
  JSON_parse (ToString (stored_schedules Sample.broken_env Sample.account)) = None /\
  WeatherToday.getSchedules Sample.broken_env Sample.account initial
  = (Ok (VArr []),
     add_events initial [read_schedules Sample.account; invalid_format_warning]).
Proof.
  assert (Hbad : JSON_parse (ToString (stored_schedules Sample.broken_env
                                         Sample.account)) = None).
  { vm_compute. reflexivity. }
  split; [ exact Hbad | ].
  exact (proj1 (proj2 (getSchedules_fails_open Sample.broken_env Sample.account
                         Sample.at_0730 initial) Hbad)).
Defined.

(** Checked at 07:30, run at 07:31: the one entry no longer matches. *)
Lemma run_without_matching_entry_witness :
  scheduleList Sample.checked = VArr Sample.tokyo_list /\
  WeatherToday.run (Sample.plugin Sample.at_0731) NoResponse true Sample.checked
  = (Throw location_of_undefined, Sample.checked).
Proof.
  assert (Hl : scheduleList Sample.checked = VArr Sample.tokyo_list).
  { vm_compute. reflexivity. }
  assert (Hno : forall s, s ∈ Sample.tokyo_list ->
                  ~ entry_at (getHours Sample.at_0731) (getMinutes Sample.at_0731) s).
  { assert (Hall : forallb (fun s => negb (WeatherToday.matches
                                             (getHours Sample.at_0731)
                                             (getMinutes Sample.at_0731) s))
                           Sample.tokyo_list = true).
    { vm_compute. reflexivity. }
    intros s Hs Hat. apply matches_entry_at in Hat.
    apply list_elem_of_In in Hs.
    pose proof (proj1 (forallb_forall _ _) Hall s Hs) as Hneg.
    cbv beta in Hneg. rewrite Hat in Hneg. discriminate Hneg. }
  split; [ exact Hl | ].
  refine (proj1 (proj2 (proj2 (proj2
            (run_without_matching_entry (Sample.plugin Sample.at_0731)
               Sample.tokyo_list NoResponse true Sample.checked Hl Hno))) _ _)).
  vm_compute. reflexivity.
Defined.

(** The stored text [5] is JSON, and no array. *)
Lemma getSchedules_unvalidated_witness :
  JSON_parse (ToString (stored_schedules Sample.number_env Sample.account))
  = Some (VNum (of_Z 5)) /\
  exists e st',
    WeatherToday.isValid Sample.number_env Sample.account Sample.at_0730 initial
    = (Throw (TypeError e), st') /\
    scheduleList st' = VNum (of_Z 5).
Proof.
  assert (Hparse : JSON_parse (ToString (stored_schedules Sample.number_env
                                           Sample.account))
                   = Some (VNum (of_Z 5))).
  { vm_compute. reflexivity. }
  split; [ exact Hparse | ].
  exact (proj1 (proj2 (getSchedules_unvalidated Sample.number_env Sample.account
                         Sample.at_0730 initial (VNum (of_Z 5))
                         eq_refl Hparse eq_refl))).
Defined.

(** After the first check the list stays, whoever asks and whatever the
    store holds by then. *)
Lemma cache_loaded_while_unset_witness :
  ToBoolean (scheduleList Sample.checked) = true /\
  scheduleList
    (process WeatherToday.run
       [ CallIsValid Sample.broken_env Sample.other_account Sample.at_0731;
         CallRun (Sample.plugin Sample.at_0730) NoResponse true;
         CallIsValid Sample.number_env Sample.account Sample.at_0730 ]
       Sample.checked)
  = scheduleList Sample.checked.
Proof.
  assert (Htruthy : ToBoolean (scheduleList Sample.checked) = true).
  { vm_compute. reflexivity. }
  split; [ exact Htruthy | ].
  exact (proj1 (proj1 (proj2 (cache_loaded_while_unset WeatherToday.run
                                (or_introl eq_refl))) _ Sample.checked Htruthy)).
Defined.

(** C7 as worded fails.  Without an API key in the store the client stays
    [null] and each of three validity checks reads the key again; with the
    stored text [null] the schedule list stays falsy and each of two checks
    loads it again. *)
Lemma forecast_key_read_on_every_check :
  (let st := process WeatherToday.run
               [ CallIsValid Sample.keyless_env Sample.account Sample.at_0730;
                 CallIsValid Sample.keyless_env Sample.account Sample.at_0731;
                 CallIsValid Sample.keyless_env Sample.account Sample.at_0731 ]
               initial in
   forecast st = FNull /\
   key_loads (trace st) = 3%nat /\
   schedule_loads (trace st) = 1%nat) /\
  (let st := process WeatherToday.run
               [ CallIsValid Sample.null_env Sample.account Sample.at_0730;
                 CallIsValid Sample.null_env Sample.account Sample.at_0731 ]
               initial in
   scheduleList st = VNull /\
   schedule_loads (trace st) = 2%nat).
Proof. split; repeat split; vm_compute; reflexivity. Qed.

(** The whole path at 07:30: check, fetch, post, completion. *)
Example check_then_run_posts :
  exists client point,
    List.filter (fun e => is_post e || is_finish e
                          || match e with ForecastGet _ _ => true | _ => false end)
      (trace (process Part000.run
                [ CallIsValid Sample.tokyo_env Sample.account Sample.at_0730;
                  CallRun (Sample.plugin Sample.at_0730)
                    (Response None
                       (Some (Sample.payload "clear-day" "20.4" "0.33" 25)))
                    true ]
                initial))
    = [ ForecastGet client point;
        PostTweet Sample.account
          (utf16 "Tokyoの天気予報" ++ nl ++ nl
             ++ utf16 "0時" ++ nl ++ utf16 "☀ 20℃ 33％" ++ nl ++ nl
             ++ utf16 "3時" ++ nl ++ utf16 "☀ 20℃ 33％" ++ nl ++ nl
             ++ utf16 "6時" ++ nl ++ utf16 "☀ 20℃ 33％" ++ nl ++ nl
             ++ utf16 "9時" ++ nl ++ utf16 "☀ 20℃ 33％" ++ nl ++ nl
             ++ utf16 "12時" ++ nl ++ utf16 "☀ 20℃ 33％" ++ nl ++ nl
             ++ utf16 "15時" ++ nl ++ utf16 "☀ 20℃ 33％" ++ nl ++ nl
             ++ utf16 "18時" ++ nl ++ utf16 "☀ 20℃ 33％" ++ nl ++ nl
             ++ utf16 "21時" ++ nl ++ utf16 "☀ 20℃ 33％" ++ nl ++ nl);
        Finish true ].
Proof. eexists _, _. vm_compute. reflexivity. Qed.

End RunsOnSampleHost.

(** * Further properties *)

(** ** What the validity check answers *)

Section ValidityCheck.
Context `{Host}.

Lemma Array_find_truthy (h m : number) (l : list value) :
  ToBoolean (WeatherToday.Array_find (WeatherToday.matches h m) l) = true <->
  exists s, s ∈ l /\ entry_at h m s.
Proof.
  split.
  - intros Htruthy.
    assert (Hr : WeatherToday.Array_find (WeatherToday.matches h m) l <> VUndefined).
    { intros E. rewrite E in Htruthy. discriminate Htruthy. }
    destruct (Array_find_found _ _ _ Hr eq_refl) as (i & Hi & Hf & _).
    eexists. split; [ eapply list_elem_of_lookup_2; eauto | by apply matches_entry_at ].
  - intros (s & Hin & Hat). apply matches_entry_at in Hat.
    assert (Hr : WeatherToday.Array_find (WeatherToday.matches h m) l <> VUndefined).
    { eapply Array_find_some; eauto using matches_truthy. }
    destruct (Array_find_found _ _ _ Hr eq_refl) as (i & _ & Hf & _).
    eapply matches_truthy; eauto.
Qed.

(** X1. With an array as schedule list, cached already or loaded by this very
    check, [isValid] throws nothing and answers [true] exactly when some
    entry of the list is set for the local hour and minute of the date. *)
Theorem isValid_answers_by_match (env : EnvStore) (accountData : AccountData)
        (nowDate : Date) (st : State) (l : list value) :
  scheduleList st = VArr l \/
  (ToBoolean (scheduleList st) = false /\
   JSON_parse (ToString (stored_schedules env accountData)) = Some (VArr l)) ->
  exists b st',
    WeatherToday.isValid env accountData nowDate st = (Ok b, st') /\
    scheduleList st' = VArr l /\
    (b = true <->
     exists s, s ∈ l /\ entry_at (getHours nowDate) (getMinutes nowDate) s).
Proof.
  intros Hlist. rewrite isValid_run.
  assert (Hload : (schedule_load env accountData (scheduleList st)).1 = VArr l).
  { unfold schedule_load. destruct Hlist as [-> | [-> ->]]; reflexivity. }
  rewrite Hload. cbn [WeatherToday.getMatchedSchedule].
  eexists _, _. split; [ reflexivity | ]. split; [ reflexivity | ].
  apply Array_find_truthy.
Qed.

(** X2. Once the schedule list is cached, the answer of a validity check
    does not depend on the account it is made for nor on what the store holds:
    the list first loaded decides for every account. *)
Theorem isValid_answer_ignores_account (env env' : EnvStore)
        (accountData accountData' : AccountData) (nowDate : Date) (st : State) :
  ToBoolean (scheduleList st) = true ->
  fst (WeatherToday.isValid env accountData nowDate st)
  = fst (WeatherToday.isValid env' accountData' nowDate st) /\
  scheduleList (snd (WeatherToday.isValid env accountData nowDate st))
  = scheduleList st.
Proof.
  intros Hcached. rewrite !isValid_run. unfold schedule_load.
  rewrite Hcached. split; reflexivity.
Qed.

Lemma schedule_load_config (env : EnvStore) (accountData : AccountData)
      (cached : value) :
  forallb is_config_event (schedule_load env accountData cached).2 = true.
Proof.
  unfold schedule_load. destruct (ToBoolean cached); [ reflexivity | ].
  destruct (JSON_parse _); reflexivity.
Qed.

Lemma client_load_config (env : EnvStore) (accountData : AccountData)
      (cached : ForecastRef) :
  forallb is_config_event (client_load env accountData cached).2 = true.
Proof.
  unfold client_load. destruct (forecast_truthy cached); [ reflexivity | ].
  destruct (ToBoolean _); reflexivity.
Qed.

(** X3. A validity check only reads the store, logs and builds the client: it
    never fetches a forecast, posts, or calls a completion callback, and it
    keeps the trace it found as a prefix. *)
Theorem isValid_only_configures (env : EnvStore) (accountData : AccountData)
        (nowDate : Date) (st : State) :
  exists evs,
    trace (snd (WeatherToday.isValid env accountData nowDate st)) = trace st ++ evs /\
    forallb is_config_event evs = true /\
    List.filter is_fetch evs = [] /\
    List.filter is_post evs = [] /\
    List.filter is_finish evs = [].
Proof.
  rewrite isValid_run. cbn [snd trace]. eexists. split; [ reflexivity | ].
  assert (Hcfg : forallb is_config_event
                   ((schedule_load env accountData (scheduleList st)).2
                    ++ (client_load env accountData (forecast st)).2) = true).
  { rewrite forallb_app, schedule_load_config, client_load_config. reflexivity. }
  split; [ exact Hcfg | ].
  assert (Hnone : forall (p : Event -> bool) (evs : list Event),
             (forall e, is_config_event e = true -> p e = false) ->
             forallb is_config_event evs = true -> List.filter p evs = []).
  { intros p evs Hp. induction evs as [|e evs IH]; [ reflexivity | ].
    cbn [forallb List.filter]. intros Hall.
    apply andb_prop in Hall as [He Hall]. rewrite (Hp e He). by apply IH. }
  repeat split; (apply Hnone; [ intros [] He; try discriminate He; reflexivity | exact Hcfg ]).
Qed.

Lemma matches_invalid_date (s : value) :
  WeatherToday.matches (getHours None) (getMinutes None) s = false.
Proof.
  unfold WeatherToday.matches. cbn [getHours].
  destruct (ToBoolean s); [ | reflexivity ].
  destruct (prop s (utf16 "hours")); reflexivity.
Qed.

(** X4. An invalid date has no hour: it matches no entry, whatever the list
    holds, and a validity check on an array then answers [false]. *)
Theorem invalid_date_matches_nothing (env : EnvStore) (accountData : AccountData)
        (st : State) (l : list value) :
  WeatherToday.getMatchedSchedule None (VArr l) = Ok VUndefined /\
  (scheduleList st = VArr l ->
   fst (WeatherToday.isValid env accountData None st) = Ok false).
Proof.
  assert (Hfind : WeatherToday.getMatchedSchedule None (VArr l) = Ok VUndefined).
  { unfold WeatherToday.getMatchedSchedule. f_equal. apply Array_find_none.
    intros s _. rewrite matches_invalid_date. discriminate. }
  split; [ exact Hfind | ].
  intros Hl. rewrite isValid_run. unfold schedule_load. rewrite Hl.
  cbn [ToBoolean fst]. rewrite Hfind. reflexivity.
Qed.

End ValidityCheck.

(** ** What one call of [run] does *)

Section RunPaths.
Context `{Host}.

(** [run] past the lookups: a matched entry with a location, and a client. *)
Lemma run_on_match (self : WeatherToday.WeatherToday) (resp : FetchResponse)
      (isSuccess : bool) (st : State) (s location point : value) (client : Forecast) :
  WeatherToday.getMatchedSchedule (WeatherToday.nowDate self) (scheduleList st) = Ok s ->
  forecast st = FClient client ->
  get s (utf16 "location") = Ok location ->
  get location (utf16 "point") = Ok point ->
  WeatherToday.run self resp isSuccess st =
  match resp with
  | NoResponse => (Ok tt, add_events st [ForecastGet client point])
  | Response (Some _) _ =>
    (Ok tt, add_events st [ForecastGet client point; fetch_error_log])
  | Response None weather =>
    match WeatherToday.tweetText s weather with
    | Ok text =>
      (Ok tt, add_events st [ForecastGet client point;
                             PostTweet (WeatherToday.accountData self) text;
                             Finish isSuccess])
    | Throw e => (Throw e, add_events st [ForecastGet client point])
    end
  end /\
  Part000.run self resp isSuccess st =
  match resp with
  | NoResponse => (Ok tt, add_events st [ForecastGet client point])
  | Response (Some _) _ =>
    (Ok tt, add_events st [ForecastGet client point; fetch_error_log])
  | Response None weather =>
    match Part000.tweetText s weather with
    | Ok text =>
      (Ok tt, add_events st [ForecastGet client point;
                             PostTweet (WeatherToday.accountData self) text;
                             Finish isSuccess])
    | Throw e => (Throw e, add_events st [ForecastGet client point])
    end
  end.
Proof.
  intros Hs Hc Hloc Hpoint.
  unfold WeatherToday.run, Part000.run,
    WeatherToday.tweetWeather, Part000.tweetWeather.
  run_m. rewrite Hs, Hc, Hloc, Hpoint.
  destruct resp as [|[err|] weather]; [ split; reflexivity | | ].
  - unfold WeatherToday.onForecast, Part000.onForecast. run_m.
    rewrite add_events_app. split; reflexivity.
  - unfold WeatherToday.onForecast, Part000.onForecast. run_m.
    destruct (WeatherToday.tweetText s weather), (Part000.tweetText s weather);
      rewrite ?add_events_app; split; reflexivity.
Qed.

(** X5. When the entry matched has a location, a client is cached, the fetch
    is answered without error and the text builds, [run] does three things in
    this order and nothing else: it fetches for the point of the entry, posts
    the text for the account of the plugin, and calls the completion callback
    with the success flag of the post. *)
Theorem run_fetches_posts_completes (self : WeatherToday.WeatherToday)
        (weather : option WeatherForcast) (isSuccess : bool) (st : State)
        (s location point : value) (client : Forecast) :
  WeatherToday.getMatchedSchedule (WeatherToday.nowDate self) (scheduleList st) = Ok s ->
  forecast st = FClient client ->
  get s (utf16 "location") = Ok location ->
  get location (utf16 "point") = Ok point ->
  (forall text,
     WeatherToday.tweetText s weather = Ok text ->
     WeatherToday.run self (Response None weather) isSuccess st
     = (Ok tt, add_events st [ForecastGet client point;
                              PostTweet (WeatherToday.accountData self) text;
                              Finish isSuccess])) /\
  (forall text,
     Part000.tweetText s weather = Ok text ->
     Part000.run self (Response None weather) isSuccess st
     = (Ok tt, add_events st [ForecastGet client point;
                              PostTweet (WeatherToday.accountData self) text;
                              Finish isSuccess])).
Proof.
  intros Hs Hc Hloc Hpoint.
  destruct (run_on_match self (Response None weather) isSuccess st s location point
              client Hs Hc Hloc Hpoint) as [E1 E2].
  split; intros text Ht; [ rewrite E1 | rewrite E2 ]; rewrite Ht; reflexivity.
Qed.

(** What a call of [run] adds to the trace, with what is posted. *)
Lemma run_trace_detail (self : WeatherToday.WeatherToday) (resp : FetchResponse)
      (isSuccess : bool) (st : State) :
  let shape (evs : list Event) :=
    evs = [] \/
    exists client point,
      evs = [ForecastGet client point] \/
      evs = [ForecastGet client point; fetch_error_log] \/
      exists text,
        (length text <= 140)%nat /\
        (exists weather, resp = Response None weather) /\
        evs = [ForecastGet client point;
               PostTweet (WeatherToday.accountData self) text;
               Finish isSuccess] in
  (exists evs, snd (WeatherToday.run self resp isSuccess st) = add_events st evs /\
               shape evs) /\
  (exists evs, snd (Part000.run self resp isSuccess st) = add_events st evs /\
               shape evs).
Proof.
  intros shape.
  assert (Hnil : forall r : Result unit, exists evs,
             snd (r, st) = add_events st evs /\ shape evs).
  { intros r. exists []. split; [ by rewrite add_events_nil | by left ]. }
  destruct (WeatherToday.getMatchedSchedule (WeatherToday.nowDate self)
              (scheduleList st)) as [s|e] eqn:Hs.
  2: { unfold WeatherToday.run, Part000.run. run_m. rewrite Hs. split; apply Hnil. }
  destruct (forecast st) as [| |client] eqn:Hc.
  1, 2: unfold WeatherToday.run, Part000.run,
          WeatherToday.tweetWeather, Part000.tweetWeather;
        run_m; rewrite Hs, Hc; split; apply Hnil.
  destruct (get s (utf16 "location")) as [location|e] eqn:Hloc.
  2: { unfold WeatherToday.run, Part000.run,
         WeatherToday.tweetWeather, Part000.tweetWeather.
       run_m. rewrite Hs, Hc, Hloc. split; apply Hnil. }
  destruct (get location (utf16 "point")) as [point|e] eqn:Hpoint.
  2: { unfold WeatherToday.run, Part000.run,
         WeatherToday.tweetWeather, Part000.tweetWeather.
       run_m. rewrite Hs, Hc, Hloc, Hpoint. split; apply Hnil. }
  destruct (run_on_match self resp isSuccess st s location point client
              Hs Hc Hloc Hpoint) as [E1 E2].
  rewrite E1, E2. clear E1 E2.
  destruct resp as [|[err|] weather].
  - split; eexists; (split; [ reflexivity | ]); right; exists client, point; by left.
  - split; eexists; (split; [ reflexivity | ]); right; exists client, point;
      right; by left.
  - split.
    + destruct (WeatherToday.tweetText s weather) as [text|e] eqn:Ht.
      * eexists. split; [ reflexivity | ]. right. exists client, point.
        right. right. exists text. split; [ | eauto ].
        destruct (tweetText_limited s weather text (or_introl Ht)) as [raw ->].
        apply limit_length.
      * eexists. split; [ reflexivity | ]. right. exists client, point. by left.
    + destruct (Part000.tweetText s weather) as [text|e] eqn:Ht.
      * eexists. split; [ reflexivity | ]. right. exists client, point.
        right. right. exists text. split; [ | eauto ].
        destruct (tweetText_limited s weather text (or_intror Ht)) as [raw ->].
        apply limit_length.
      * eexists. split; [ reflexivity | ]. right. exists client, point. by left.
Qed.

(** X6. Whatever the schedule, the cache and the answers of the network, one
    call of [run] leaves both statics as they were, fetches at most once,
    posts at most once, and calls the completion callback exactly as often as
    it posts; what it posts is for the account of the plugin and at most 140
    code units long, and the callback gets the flag of the post. *)
Theorem run_discipline (self : WeatherToday.WeatherToday) (resp : FetchResponse)
        (isSuccess : bool) (st : State) (run : Runner) :
  run = WeatherToday.run \/ run = Part000.run ->
  exists evs,
    snd (run self resp isSuccess st) = add_events st evs /\
    (length (List.filter is_fetch evs) <= 1)%nat /\
    (length (List.filter is_post evs) <= 1)%nat /\
    length (List.filter is_finish evs) = length (List.filter is_post evs) /\
    (forall account text, PostTweet account text ∈ evs ->
       account = WeatherToday.accountData self /\ (length text <= 140)%nat) /\
    (forall flag, Finish flag ∈ evs -> flag = isSuccess).
Proof.
  intros Hrun.
  destruct (run_trace_detail self resp isSuccess st) as [(e1 & E1 & S1) (e2 & E2 & S2)].
  assert (Hshape : exists evs,
             snd (run self resp isSuccess st) = add_events st evs /\
             (evs = [] \/
              exists client point,
                evs = [ForecastGet client point] \/
                evs = [ForecastGet client point; fetch_error_log] \/
                exists text,
                  (length text <= 140)%nat /\
                  (exists weather, resp = Response None weather) /\
                  evs = [ForecastGet client point;
                         PostTweet (WeatherToday.accountData self) text;
                         Finish isSuccess])).
  { destruct Hrun as [-> | ->]; eauto. }
  destruct Hshape as (evs & Hst & Hevs). exists evs. split; [ exact Hst | ].
  assert (Hposted : (forall account text, PostTweet account text ∈ evs ->
                        account = WeatherToday.accountData self /\
                        (length text <= 140)%nat) /\
                    (forall flag, Finish flag ∈ evs -> flag = isSuccess)).
  { split.
    - intros account text Hin. apply list_elem_of_In in Hin.
      destruct Hevs as [-> | (c & p & [-> | [-> | (t & Hlen & _ & ->)]])];
        cbn [In] in Hin;
        repeat (destruct Hin as [Hin | Hin]; [ try discriminate Hin | ]);
        try contradiction.
      injection Hin as <- <-. split; [ reflexivity | exact Hlen ].
    - intros flag Hin. apply list_elem_of_In in Hin.
      destruct Hevs as [-> | (c & p & [-> | [-> | (t & Hlen & _ & ->)]])];
        cbn [In] in Hin;
        repeat (destruct Hin as [Hin | Hin]; [ try discriminate Hin | ]);
        try contradiction.
      injection Hin as <-. reflexivity. }
  destruct Hposted as [Hpost Hfinish].
  destruct Hevs as [-> | (c & p & [-> | [-> | (t & Hlen & _ & ->)]])];
    cbn [List.filter is_fetch is_post is_finish fetch_error_log length];
    (split; [ lia | ]); (split; [ lia | ]); (split; [ reflexivity | ]);
    (split; assumption).
Qed.

End RunPaths.

(** ** Where [run] stops short *)

Section RunFailures.
Context `{Host}.

(** X7. With an array as schedule list but no forecast client cached (the
    key was missing, or no validity check has run), [run] throws the
    [TypeError] of reading [get] on [null] or [undefined], whether or not an
    entry matches, and does nothing else. *)
Theorem run_without_client (self : WeatherToday.WeatherToday) (resp : FetchResponse)
        (isSuccess : bool) (st : State) (l : list value) :
  scheduleList st = VArr l ->
  forecast_truthy (forecast st) = false ->
  exists e,
    (forecast st = FNull /\ e = get_of_null \/
     forecast st = FUndefined /\ e = get_of_undefined) /\
    WeatherToday.run self resp isSuccess st = (Throw e, st) /\
    Part000.run self resp isSuccess st = (Throw e, st).
Proof.
  intros Hl Hnone.
  unfold WeatherToday.run, Part000.run,
    WeatherToday.tweetWeather, Part000.tweetWeather.
  run_m. rewrite Hl. cbn [WeatherToday.getMatchedSchedule].
  destruct (forecast st) as [| |client]; [ | | discriminate Hnone ].
  - exists get_of_undefined. split; [ right; by split | ].
    split; vm_compute; reflexivity.
  - exists get_of_null. split; [ left; by split | ].
    split; vm_compute; reflexivity.
Qed.

Lemma get_of_truthy (s : value) (k : jsstring) :
  ToBoolean s = true -> get s k = Ok (prop s k).
Proof. destruct s; try discriminate; reflexivity. Qed.

(** X8. An entry that names no location passes the validity check like any
    other, and [run] then throws the [TypeError] of reading [point] on
    [undefined], before any fetch, post or completion. *)
Theorem run_entry_without_location (self : WeatherToday.WeatherToday)
        (resp : FetchResponse) (isSuccess : bool) (st : State) (l : list value)
        (s : value) (client : Forecast) :
  scheduleList st = VArr l ->
  forecast st = FClient client ->
  WeatherToday.getMatchedSchedule (WeatherToday.nowDate self) (VArr l) = Ok s ->
  s <> VUndefined ->
  prop s (utf16 "location") = VUndefined ->
  (forall env accountData,
     fst (WeatherToday.isValid env accountData (WeatherToday.nowDate self) st)
     = Ok true) /\
  WeatherToday.run self resp isSuccess st = (Throw point_of_undefined, st) /\
  Part000.run self resp isSuccess st = (Throw point_of_undefined, st).
Proof.
  intros Hl Hc Hs Hfound Hloc.
  assert (Htruthy : ToBoolean s = true).
  { injection Hs as Hs.
    destruct (Array_find_found _ _ _ Hfound Hs) as (i & _ & Hm & _).
    eapply matches_truthy; eauto. }
  split.
  - intros env accountData. rewrite isValid_run. unfold schedule_load.
    rewrite Hl. cbn [ToBoolean fst]. rewrite Hs, Htruthy. reflexivity.
  - unfold WeatherToday.run, Part000.run,
      WeatherToday.tweetWeather, Part000.tweetWeather.
    run_m. rewrite Hl, Hs, Hc, (get_of_truthy s _ Htruthy), Hloc.
    split; vm_compute; reflexivity.
Qed.

End RunFailures.

(** ** Payloads with parts missing *)

Section MissingParts.
Context `{Host}.

(** X9. On a payload whose hourly samples, where it has any, are objects as
    [interface Weather] declares, and for an entry whose location name is a
    string, the text builder of [part_000] never throws: it returns a text of
    at most 140 code units, also when the payload, its hourly block or the
    samples are missing.  Whenever the samples are missing or are at most 24,
    the text is the fixed failure text, whatever the entry is. *)
Theorem part000_tweetText_total (schedule : value) (weather : option WeatherForcast)
        (name : jsstring) :
  (prop (prop schedule (utf16 "location")) (utf16 "name") = VStr name ->
   exists text, Part000.tweetText schedule weather = Ok text /\
                (length text <= 140)%nat) /\
  (Part000.hourlyData weather = None \/
   (exists samples, Part000.hourlyData weather = Some samples /\
                    (length samples <= 24)%nat) ->
   Part000.tweetText schedule weather = Ok failure_text).
Proof.
  unfold Part000.tweetText.
  destruct (Part000.hourlyData weather) as [samples|].
  - change (default 0%nat (length <$> Some samples)) with (length samples).
    change (default [] (Some samples)) with samples.
    destruct (WeatherToday.inter * WeatherToday.count <? length samples)%nat eqn:E.
    + apply Nat.ltb_lt in E. rewrite forecastLoop_rounded.
      * split.
        -- intros _. eexists. split; [ reflexivity | apply limit_length ].
        -- intros [Hnone | (samples' & Hsome & Hlen)]; [ discriminate Hnone | ].
           injection Hsome as <-.
           unfold WeatherToday.inter, WeatherToday.count in E. lia.
      * intros k Hk. unfold WeatherToday.inter, WeatherToday.count in *. lia.
    + split; [ intros _; eexists; split; [ reflexivity | apply limit_length ] | ].
      intros _. reflexivity.
  - change (default 0%nat (length <$> None)) with 0%nat.
    change (WeatherToday.inter * WeatherToday.count <? 0)%nat with false.
    split; [ intros _; eexists; split; [ reflexivity | apply limit_length ] | ].
    intros _. reflexivity.
Qed.

(** X10. On a payload whose hourly samples, where it has any, are objects as
    [interface Weather] declares, and for an entry whose location name is a
    string, the text builder of [src/weatherToday.ts] returns a text exactly
    when the payload carries its hourly samples and, if these are more than
    24, its [currently] block as well; otherwise it throws. *)
Theorem weatherToday_tweetText_returns_iff (schedule : value)
        (weather : option WeatherForcast) (name : jsstring) :
  prop (prop schedule (utf16 "location")) (utf16 "name") = VStr name ->
  ((exists text, WeatherToday.tweetText schedule weather = Ok text) <->
   (exists w h samples,
      weather = Some w /\ hourly w = Some h /\ data h = Some samples /\
      ((length samples <= 24)%nat \/ is_Some (currently w)))).
Proof.
  intros _. split.
  - intros [text Ht]. unfold WeatherToday.tweetText in Ht.
    destruct weather as [w|]; [ | discriminate Ht ].
    destruct (hourly w) as [h|] eqn:Hh; [ | discriminate Ht ].
    destruct (data h) as [samples|] eqn:Hd; [ | discriminate Ht ].
    exists w, h, samples. repeat split; try assumption.
    destruct (WeatherToday.inter * WeatherToday.count <? length samples)%nat eqn:E.
    + right. destruct (currently w); [ eauto | discriminate Ht ].
    + left. apply Nat.ltb_ge in E. exact E.
  - intros (w & h & samples & -> & Hh & Hd & Hok).
    destruct (Nat.le_gt_cases (length samples) 24) as [Hle | Hgt].
    + exists failure_text. eapply tweetText_failure; eauto.
    + destruct Hok as [Hle | Hc]; [ lia | ].
      eexists. eapply tweetText_unrounded; eauto.
Qed.

Lemma tweetText_without_samples (schedule : value) (weather : option WeatherForcast) :
  Part000.hourlyData weather = None ->
  exists e, WeatherToday.tweetText schedule weather = Throw (TypeError e).
Proof.
  unfold Part000.hourlyData, WeatherToday.tweetText. intros Hnone.
  destruct weather as [w|]; [ | eauto ]. cbn [mbind option_bind] in Hnone.
  destruct (hourly w) as [h|]; [ | eauto ]. cbn [mbind option_bind] in Hnone.
  rewrite Hnone. eauto.
Qed.

(** X11. When the fetch is answered without error but without hourly samples,
    [src/weatherToday.ts] throws inside the callback after the fetch, so that
    nothing is posted and the completion callback is never called, while
    [part_000] posts the fixed failure text and completes. *)
Theorem run_on_payload_without_samples (self : WeatherToday.WeatherToday)
        (weather : option WeatherForcast) (isSuccess : bool) (st : State)
        (s location point : value) (client : Forecast) :
  WeatherToday.getMatchedSchedule (WeatherToday.nowDate self) (scheduleList st) = Ok s ->
  forecast st = FClient client ->
  get s (utf16 "location") = Ok location ->
  get location (utf16 "point") = Ok point ->
  Part000.hourlyData weather = None ->
  (exists e,
     WeatherToday.run self (Response None weather) isSuccess st
     = (Throw (TypeError e), add_events st [ForecastGet client point])) /\
  Part000.run self (Response None weather) isSuccess st
  = (Ok tt, add_events st [ForecastGet client point;
                           PostTweet (WeatherToday.accountData self) failure_text;
                           Finish isSuccess]).
Proof.
  intros Hs Hc Hloc Hpoint Hnone.
  destruct (run_on_match self (Response None weather) isSuccess st s location point
              client Hs Hc Hloc Hpoint) as [E1 E2].
  rewrite E1, E2.
  destruct (tweetText_without_samples s weather Hnone) as [e ->].
  unfold Part000.tweetText. rewrite Hnone.
  split; [ eauto | reflexivity ].
Qed.

(** X12. Too few samples are no error: when the fetch is answered with at
    most 24 hourly samples, both files post the fixed failure text through
    the usual path and call the completion callback with the flag of that
    post. *)
Theorem run_posts_failure_text (self : WeatherToday.WeatherToday)
        (w : WeatherForcast) (h : HourlyBlock) (samples : list Weather)
        (isSuccess : bool) (st : State)
        (s location point : value) (client : Forecast) :
  WeatherToday.getMatchedSchedule (WeatherToday.nowDate self) (scheduleList st) = Ok s ->
  forecast st = FClient client ->
  get s (utf16 "location") = Ok location ->
  get location (utf16 "point") = Ok point ->
  hourly w = Some h -> data h = Some samples -> (length samples <= 24)%nat ->
  WeatherToday.run self (Response None (Some w)) isSuccess st
  = (Ok tt, add_events st [ForecastGet client point;
                           PostTweet (WeatherToday.accountData self) failure_text;
                           Finish isSuccess]) /\
  Part000.run self (Response None (Some w)) isSuccess st
  = (Ok tt, add_events st [ForecastGet client point;
                           PostTweet (WeatherToday.accountData self) failure_text;
                           Finish isSuccess]).
Proof.
  intros Hs Hc Hloc Hpoint Hh Hd Hlen.
  destruct (run_on_match self (Response None (Some w)) isSuccess st s location point
              client Hs Hc Hloc Hpoint) as [E1 E2].
  destruct (tweetText_failure s w h samples Hh Hd Hlen) as [T1 T2].
  rewrite E1, E2, T1, T2. split; reflexivity.
Qed.

End MissingParts.

(** ** The length limit, the header, the glyphs *)

Section TextBounds.
Context `{Host}.

(** X13. The length limit changes nothing on a text it has already cut, and
    never touches the first 139 code units of a text. *)
Theorem limit_idempotent (text : jsstring) :
  WeatherToday.limit (WeatherToday.limit text) = WeatherToday.limit text /\
  take 139 (WeatherToday.limit text) = take 139 text.
Proof.
  split; [ apply limit_short, limit_length | ].
  destruct (Nat.le_gt_cases (length text) 140) as [Hle | Hgt].
  - by rewrite limit_short.
  - rewrite limit_long by exact Hgt.
    rewrite take_app_le by (rewrite length_take; lia). apply take_idemp.
Qed.



(** The header is the name and seven more code units. *)
Lemma header_length (schedule : value) :
  length (header schedule)
  = (length (ToString (prop (prop schedule (utf16 "location")) (utf16 "name"))) + 7)%nat.
Proof. unfold header. rewrite length_app. reflexivity. Qed.

End TextBounds.



(** ** The keys of the store *)

Section StoreKeys.
Context `{Host}.

(** X16. [getSchedules] reads the store once, under the fixed plugin name and
    the key [SCHEDULES_] followed by the user id; [getForecastKey] reads it
    once, under [FORECAST_KEY_] followed by the user id.  Accounts with
    different ids read different entries, and a schedules key never equals a
    forecast key, whatever the ids are. *)
Theorem store_keys_namespaced (env : EnvStore) (a b : AccountData) (st : State) :
  (exists logs,
     trace (snd (WeatherToday.getSchedules env a st))
     = trace st ++ GetEnvData (utf16 "PLUGINSBATCHWEATHERTODAY")
                              (utf16 "SCHEDULES_" ++ userId a) :: logs /\
     forallb (fun e => negb (is_schedules_read e || is_key_read e)) logs = true) /\
  (exists logs,
     trace (snd (WeatherToday.getForecastKey env a st))
     = trace st ++ GetEnvData (utf16 "PLUGINSBATCHWEATHERTODAY")
                              (utf16 "FORECAST_KEY_" ++ userId a) :: logs /\
     forallb (fun e => negb (is_schedules_read e || is_key_read e)) logs = true) /\
  (utf16 "SCHEDULES_" ++ userId a = utf16 "SCHEDULES_" ++ userId b ->
   userId a = userId b) /\
  (utf16 "FORECAST_KEY_" ++ userId a = utf16 "FORECAST_KEY_" ++ userId b ->
   userId a = userId b) /\
  utf16 "SCHEDULES_" ++ userId a <> utf16 "FORECAST_KEY_" ++ userId b.
Proof.
  split; [ | split; [ | split; [ | split ] ] ].
  - rewrite getSchedules_run.
    destruct (JSON_parse _); eexists; (split; [ reflexivity | reflexivity ]).
  - rewrite getForecastKey_run.
    destruct (ToBoolean _); eexists; (split; [ reflexivity | reflexivity ]).
  - apply app_inv_head.
  - apply app_inv_head.
  - intros Heq. apply (f_equal head) in Heq. vm_compute in Heq. discriminate Heq.
Qed.

End StoreKeys.

(** ** The first successful load, for the rest of the process *)

Section FirstLoad.
Context `{Host}.

Lemma process_keeps_schedules (run : Runner) (calls : list Call) (st : State) :
  run = WeatherToday.run \/ run = Part000.run ->
  ToBoolean (scheduleList st) = true ->
  scheduleList (process run calls st) = scheduleList st /\
  schedule_loads (trace (process run calls st)) = schedule_loads (trace st).
Proof.
  intros Hrun. revert st. induction calls as [|c calls IH]; intros st Htruthy.
  - split; reflexivity.
  - cbn [process foldl]. fold (process run calls (step run st c)).
    destruct (step_keeps_schedules run c st Hrun Htruthy) as [Hs Hn].
    destruct (IH (step run st c)) as [Hs' Hn']; [ by rewrite Hs | ].
    split; congruence.
Qed.

Lemma process_keeps_client (run : Runner) (calls : list Call) (st : State)
      (client : Forecast) :
  run = WeatherToday.run \/ run = Part000.run ->
  forecast st = FClient client ->
  forecast (process run calls st) = FClient client /\
  key_loads (trace (process run calls st)) = key_loads (trace st) /\
  client_builds (trace (process run calls st)) = client_builds (trace st).
Proof.
  intros Hrun. revert st. induction calls as [|c calls IH]; intros st Hclient.
  - repeat split; try reflexivity. exact Hclient.
  - cbn [process foldl]. fold (process run calls (step run st c)).
    destruct (step_keeps_client run c st client Hrun Hclient) as (Hc & Hk & Hb).
    destruct (IH (step run st c) Hc) as (Hc' & Hk' & Hb').
    repeat split; congruence.
Qed.

(** X17. In a process whose first validity check finds a truthy schedule list
    and a non-empty key in the store, the list and the client of that check
    are the ones in force after any further calls, for whatever accounts and
    stores: over the whole lifetime the schedules are loaded once, the key is
    read once and one client is built. *)
Theorem first_load_is_final (run : Runner) (env : EnvStore) (accountData : AccountData)
        (nowDate : Date) (calls : list Call) (v : value) :
  run = WeatherToday.run \/ run = Part000.run ->
  JSON_parse (ToString (stored_schedules env accountData)) = Some v ->
  ToBoolean v = true ->
  ToBoolean (stored_key env accountData) = true ->
  let st := process run (CallIsValid env accountData nowDate :: calls) initial in
  scheduleList st = v /\
  forecast st = FClient (client_options (stored_key env accountData)) /\
  schedule_loads (trace st) = 1%nat /\
  key_loads (trace st) = 1%nat /\
  client_builds (trace st) = 1%nat.
Proof.
  intros Hrun Hparse Hv Hkey st. subst st.
  change (process run (CallIsValid env accountData nowDate :: calls) initial)
    with (process run calls
            (snd (WeatherToday.isValid env accountData nowDate initial))).
  rewrite isValid_run. unfold schedule_load, client_load.
  cbn [initial scheduleList forecast trace ToBoolean forecast_truthy].
  rewrite Hparse, Hkey. cbn [fst snd app].
  match goal with
  | |- context [process run calls ?s] => set (st1 := s)
  end.
  destruct (process_keeps_schedules run calls st1 Hrun Hv) as [Hs Hn].
  destruct (process_keeps_client run calls st1 _ Hrun eq_refl) as (Hc & Hk & Hb).
  rewrite Hs, Hc, Hn, Hk, Hb. subst st1. cbn [scheduleList trace].
  unfold schedule_loads, key_loads, client_builds.
  cbn [List.filter is_client_built].
  rewrite read_schedules_counts, read_key_counts,
    read_schedules_not_key, read_key_not_schedules.
  repeat split; reflexivity.
Qed.

End FirstLoad.

(** ** The further properties on the sample host *)

Section FurtherOnSampleHost.
#[local] Existing Instance SampleHost.host.

(** The first check of a process, at 07:30, on the Tokyo store. *)
Lemma isValid_answers_by_match_witness :
  JSON_parse (ToString (stored_schedules Sample.tokyo_env Sample.account))
  = Some (VArr Sample.tokyo_list) /\
  exists b st',
    WeatherToday.isValid Sample.tokyo_env Sample.account Sample.at_0730 initial
    = (Ok b, st') /\
    scheduleList st' = VArr Sample.tokyo_list /\
    (b = true <->
     exists s, s ∈ Sample.tokyo_list /\
               entry_at (getHours Sample.at_0730) (getMinutes Sample.at_0730) s).
Proof.
  assert (Hparse : JSON_parse (ToString (stored_schedules Sample.tokyo_env
                                           Sample.account))
                   = Some (VArr Sample.tokyo_list)).
  { vm_compute. reflexivity. }
  split; [ exact Hparse | ].
  exact (isValid_answers_by_match Sample.tokyo_env Sample.account Sample.at_0730
           initial Sample.tokyo_list (or_intror (conj eq_refl Hparse))).
Defined.

(** After the check for one account, another account with a broken store
    gets the same answer. *)
Lemma isValid_answer_ignores_account_witness :
  ToBoolean (scheduleList Sample.checked) = true /\
  fst (WeatherToday.isValid Sample.tokyo_env Sample.account Sample.at_0731
         Sample.checked)
  = fst (WeatherToday.isValid Sample.broken_env Sample.other_account Sample.at_0731
           Sample.checked).
Proof.
  assert (Hcached : ToBoolean (scheduleList Sample.checked) = true).
  { vm_compute. reflexivity. }
  split; [ exact Hcached | ].
  exact (proj1 (isValid_answer_ignores_account Sample.tokyo_env Sample.broken_env
                  Sample.account Sample.other_account Sample.at_0731
                  Sample.checked Hcached)).
Defined.

Lemma invalid_date_matches_nothing_witness :
  scheduleList Sample.checked = VArr Sample.tokyo_list /\
  fst (WeatherToday.isValid Sample.tokyo_env Sample.account None Sample.checked)
  = Ok false.
Proof.
  assert (Hl : scheduleList Sample.checked = VArr Sample.tokyo_list).
  { vm_compute. reflexivity. }
  split; [ exact Hl | ].
  exact (proj2 (invalid_date_matches_nothing Sample.tokyo_env Sample.account
                  Sample.checked Sample.tokyo_list) Hl).
Defined.

Lemma tokyo_lookups :
  WeatherToday.getMatchedSchedule (WeatherToday.nowDate (Sample.plugin Sample.at_0730))
    (scheduleList Sample.checked) = Ok Sample.tokyo_entry /\
  forecast Sample.checked = FClient Sample.tokyo_client /\
  get Sample.tokyo_entry (utf16 "location") = Ok Sample.tokyo_location /\
  get Sample.tokyo_location (utf16 "point") = Ok Sample.tokyo_point.
Proof. repeat split; vm_compute; reflexivity. Defined.

(** Checked and run at 07:30 with 25 samples: fetch, post, completion. *)
Lemma run_fetches_posts_completes_witness :
  Part000.tweetText Sample.tokyo_entry
    (Some (Sample.payload "clear-day" "20.4" "0.33" 25)) = Ok Sample.tokyo_post /\
  Part000.run (Sample.plugin Sample.at_0730)
    (Response None (Some (Sample.payload "clear-day" "20.4" "0.33" 25)))
    true Sample.checked
  = (Ok tt, add_events Sample.checked
              [ForecastGet Sample.tokyo_client Sample.tokyo_point;
               PostTweet Sample.account Sample.tokyo_post;
               Finish true]).
Proof.
  assert (Ht : Part000.tweetText Sample.tokyo_entry
                 (Some (Sample.payload "clear-day" "20.4" "0.33" 25))
               = Ok Sample.tokyo_post).
  { vm_compute. reflexivity. }
  split; [ exact Ht | ].
  destruct tokyo_lookups as (Hs & Hc & Hloc & Hpoint).
  exact (proj2 (run_fetches_posts_completes (Sample.plugin Sample.at_0730)
                  (Some (Sample.payload "clear-day" "20.4" "0.33" 25)) true
                  Sample.checked _ _ _ _ Hs Hc Hloc Hpoint) _ Ht).
Defined.

Lemma run_discipline_witness :
  exists evs,
    snd (WeatherToday.run (Sample.plugin Sample.at_0730)
           (Response None (Some (Sample.payload "clear-day" "20.4" "0.33" 25)))
           true Sample.checked)
    = add_events Sample.checked evs /\
    (length (List.filter is_post evs) <= 1)%nat /\
    length (List.filter is_finish evs) = length (List.filter is_post evs).
Proof.
  destruct (run_discipline (Sample.plugin Sample.at_0730)
              (Response None (Some (Sample.payload "clear-day" "20.4" "0.33" 25)))
              true Sample.checked WeatherToday.run (or_introl eq_refl))
    as (evs & Hst & _ & Hpost & Hfin & _).
  exists evs. auto.
Defined.

(** The store holds no key: the check answers, the run throws. *)
Lemma run_without_client_witness :
  scheduleList Sample.checked_keyless = VArr Sample.tokyo_list /\
  forecast Sample.checked_keyless = FNull /\
  WeatherToday.run (Sample.plugin Sample.at_0730) NoResponse true
    Sample.checked_keyless
  = (Throw get_of_null, Sample.checked_keyless).
Proof.
  assert (Hl : scheduleList Sample.checked_keyless = VArr Sample.tokyo_list).
  { vm_compute. reflexivity. }
  assert (Hf : forecast Sample.checked_keyless = FNull).
  { vm_compute. reflexivity. }
  split; [ exact Hl | ]. split; [ exact Hf | ].
  destruct (run_without_client (Sample.plugin Sample.at_0730) NoResponse true
              Sample.checked_keyless Sample.tokyo_list Hl)
    as (e & [[_ ->] | [Hu _]] & Hrun & _).
  - rewrite Hf. reflexivity.
  - exact Hrun.
  - rewrite Hf in Hu. discriminate Hu.
Defined.

(** An entry for 07:30 without a location. *)
Lemma run_entry_without_location_witness :
  scheduleList Sample.checked_nowhere = VArr Sample.nowhere_list /\
  fst (WeatherToday.isValid Sample.nowhere_env Sample.account Sample.at_0730
         Sample.checked_nowhere) = Ok true /\
  WeatherToday.run (Sample.plugin Sample.at_0730) NoResponse true
    Sample.checked_nowhere
  = (Throw point_of_undefined, Sample.checked_nowhere).
Proof.
  assert (Hl : scheduleList Sample.checked_nowhere = VArr Sample.nowhere_list).
  { vm_compute. reflexivity. }
  assert (Hc : forecast Sample.checked_nowhere = FClient Sample.tokyo_client).
  { vm_compute. reflexivity. }
  assert (Hs : WeatherToday.getMatchedSchedule
                 (WeatherToday.nowDate (Sample.plugin Sample.at_0730))
                 (VArr Sample.nowhere_list) = Ok Sample.nowhere_entry).
  { vm_compute. reflexivity. }
  assert (Hfound : Sample.nowhere_entry <> VUndefined).
  { vm_compute. discriminate. }
  assert (Hloc : prop Sample.nowhere_entry (utf16 "location") = VUndefined).
  { vm_compute. reflexivity. }
  destruct (run_entry_without_location (Sample.plugin Sample.at_0730) NoResponse
              true Sample.checked_nowhere Sample.nowhere_list Sample.nowhere_entry
              Sample.tokyo_client Hl Hc Hs Hfound Hloc) as (Hvalid & Hrun & _).
  split; [ exact Hl | ]. split; [ apply Hvalid | exact Hrun ].
Defined.

Lemma part000_tweetText_total_witness :
  prop (prop (Sample.place "Tokyo") (utf16 "location")) (utf16 "name")
  = VStr (utf16 "Tokyo") /\
  Part000.hourlyData (Some Sample.bare_payload) = None /\
  (exists text,
     Part000.tweetText (Sample.place "Tokyo")
       (Some (Sample.payload "clear-day" "20.4" "0.33" 25)) = Ok text /\
     (length text <= 140)%nat) /\
  Part000.tweetText (Sample.place "Tokyo") (Some Sample.bare_payload)
  = Ok failure_text.
Proof.
  assert (Hname : prop (prop (Sample.place "Tokyo") (utf16 "location")) (utf16 "name")
                  = VStr (utf16 "Tokyo")).
  { vm_compute. reflexivity. }
  split; [ exact Hname | ]. split; [ reflexivity | ]. split.
  - exact (proj1 (part000_tweetText_total (Sample.place "Tokyo")
                    (Some (Sample.payload "clear-day" "20.4" "0.33" 25))
                    (utf16 "Tokyo")) Hname).
  - exact (proj2 (part000_tweetText_total (Sample.place "Tokyo")
                    (Some Sample.bare_payload) (utf16 "Tokyo"))
                 (or_introl eq_refl)).
Defined.

(** Twenty-five samples and the [currently] block: a text is returned. *)
Lemma weatherToday_tweetText_returns_iff_witness :
  prop (prop (Sample.place "Tokyo") (utf16 "location")) (utf16 "name")
  = VStr (utf16 "Tokyo") /\
  exists text,
    WeatherToday.tweetText (Sample.place "Tokyo")
      (Some (Sample.payload "clear-day" "20.4" "0.33" 25)) = Ok text.
Proof.
  assert (Hname : prop (prop (Sample.place "Tokyo") (utf16 "location")) (utf16 "name")
                  = VStr (utf16 "Tokyo")).
  { vm_compute. reflexivity. }
  split; [ exact Hname | ].
  apply (proj2 (weatherToday_tweetText_returns_iff (Sample.place "Tokyo")
                  (Some (Sample.payload "clear-day" "20.4" "0.33" 25))
                  (utf16 "Tokyo") Hname)).
  eexists _, _, _. repeat split. right. eexists. reflexivity.
Defined.

(** The fetch is answered with a payload that has no hourly block. *)
Lemma run_on_payload_without_samples_witness :
  Part000.hourlyData (Some Sample.bare_payload) = None /\
  (exists e,
     WeatherToday.run (Sample.plugin Sample.at_0730)
       (Response None (Some Sample.bare_payload)) true Sample.checked
     = (Throw (TypeError e),
        add_events Sample.checked
          [ForecastGet Sample.tokyo_client Sample.tokyo_point])) /\
  Part000.run (Sample.plugin Sample.at_0730)
    (Response None (Some Sample.bare_payload)) true Sample.checked
  = (Ok tt, add_events Sample.checked
              [ForecastGet Sample.tokyo_client Sample.tokyo_point;
               PostTweet Sample.account failure_text;
               Finish true]).
Proof.
  split; [ reflexivity | ].
  destruct tokyo_lookups as (Hs & Hc & Hloc & Hpoint).
  exact (run_on_payload_without_samples (Sample.plugin Sample.at_0730)
           (Some Sample.bare_payload) true Sample.checked _ _ _ _
           Hs Hc Hloc Hpoint eq_refl).
Defined.

(** The fetch is answered with 24 samples. *)
Lemma run_posts_failure_text_witness :
  (length (map (Sample.sample "clear-day" "20.4" "0.33") (seq 0 24)) <= 24)%nat /\
  WeatherToday.run (Sample.plugin Sample.at_0730)
    (Response None (Some (Sample.payload "clear-day" "20.4" "0.33" 24)))
    false Sample.checked
  = (Ok tt, add_events Sample.checked
              [ForecastGet Sample.tokyo_client Sample.tokyo_point;
               PostTweet Sample.account failure_text;
               Finish false]).
Proof.
  assert (Hlen : (length (map (Sample.sample "clear-day" "20.4" "0.33")
                              (seq 0 24)) <= 24)%nat).
  { vm_compute. lia. }
  split; [ exact Hlen | ].
  destruct tokyo_lookups as (Hs & Hc & Hloc & Hpoint).
  exact (proj1 (run_posts_failure_text (Sample.plugin Sample.at_0730)
                  (Sample.payload "clear-day" "20.4" "0.33" 24) _ _
                  false Sample.checked _ _ _ _
                  Hs Hc Hloc Hpoint eq_refl eq_refl Hlen)).
Defined.


Lemma store_keys_namespaced_witness :
  utf16 "SCHEDULES_" ++ userId Sample.account
  = utf16 "SCHEDULES_" ++ userId Sample.account /\
  userId Sample.account = userId Sample.account.
Proof.
  split; [ reflexivity | ].
  exact (proj1 (proj2 (proj2 (store_keys_namespaced Sample.tokyo_env Sample.account
                                Sample.account initial))) eq_refl).
Defined.

(** One check on the Tokyo store, then calls for another account on other
    stores. *)
Lemma first_load_is_final_witness :
  JSON_parse (ToString (stored_schedules Sample.tokyo_env Sample.account))
  = Some (VArr Sample.tokyo_list) /\
  schedule_loads
    (trace (process Part000.run
              [ CallIsValid Sample.tokyo_env Sample.account Sample.at_0730;
                CallIsValid Sample.broken_env Sample.other_account Sample.at_0731;
                CallRun (Sample.plugin Sample.at_0730) NoResponse true;
                CallIsValid Sample.keyless_env Sample.other_account Sample.at_0730 ]
              initial)) = 1%nat.
Proof.
  assert (Hparse : JSON_parse (ToString (stored_schedules Sample.tokyo_env
                                           Sample.account))
                   = Some (VArr Sample.tokyo_list)).
  { vm_compute. reflexivity. }
  assert (Hkey : ToBoolean (stored_key Sample.tokyo_env Sample.account) = true).
  { vm_compute. reflexivity. }
  split; [ exact Hparse | ].
  exact (proj1 (proj2 (proj2 (first_load_is_final Part000.run Sample.tokyo_env
                                Sample.account Sample.at_0730 _
                                (VArr Sample.tokyo_list) (or_intror eq_refl)
                                Hparse eq_refl Hkey)))).
Defined.

End FurtherOnSampleHost.
